(** * easy-ecs: context resolution, naming and tagging of the three stacks

    A shallow embedding of the app entry point (the script that creates
    the [cdk.App] and the three stacks), of [EcrStack] in [lib/ecr-stack.ts],
    and of [EcsStack] and [ObservabilityStack].

    Modelling choices.
    - A context value is a JavaScript value: [undefined], a string or an
      integer number.  Number rendering is decimal, which is what
      [Number.prototype.toString] gives for integers of magnitude up to
      2^53; statements that depend on the rendering carry that bound.
    - Strings are Rocq strings; [toLowerCase] maps the letters [A-Z] to
      [a-z] and leaves every other character alone, which is what
      [String.prototype.toLowerCase] does on ASCII text; statements that
      depend on the value of a lower-cased input carry [ascii_only].
    - The construct tree's context is a finite map from keys to values;
      [tryGetContext] of an absent key is [undefined].
    - An exception is an error object with its class name and message.
    - The CDK library is external and may throw at every call.  A
      constructor is a script: the library calls it makes, in source order
      and with the arguments it computes, up to the first exception of its
      own code, together with the outcome of its own code.  [run] plays a
      script against a library, given as a function from the calls that
      have returned and the next call to the error that call throws, if
      any.  Property reads on library objects belong to the call that
      consumes them. *)

From Stdlib Require Import String Ascii ZArith NArith List Lia Bool.
From Stdlib Require Import DecimalString.
From stdpp Require Import base option gmap strings fin_maps.

Local Open Scope string_scope.

(** ** JavaScript values and strings *)

Module Js.

Inductive Value : Type :=
  | Undefined
  | Str (s : string)
  | Num (n : Z).

#[global] Instance Value_eq_dec : EqDecision Value.
Proof. solve_decision. Defined.

(** Error objects: [name] is the class name ("TypeError", ...). *)
Record Error : Type := mkError { name : string; message : string }.

Inductive Result (A : Type) : Type :=
  | Ok (a : A)
  | Throw (e : Error).
Arguments Ok {A} a.
Arguments Throw {A} e.

Definition bind {A B} (r : Result A) (k : A -> Result B) : Result B :=
  match r with
  | Ok a => k a
  | Throw e => Throw e
  end.

(** ToBoolean, as used by [c ? a : b] and [a || b]. *)
Definition truthy (v : Value) : bool :=
  match v with
  | Undefined => false
  | Str s => negb (String.eqb s "")
  | Num n => negb (Z.eqb n 0)
  end.

(** [a || b] *)
Definition or_else (a b : Value) : Value := if truthy a then a else b.

(** ToString, as used by template literals and [x.toString()]; exact for
    integers of magnitude up to 2^53. *)
Definition string_of_Z (n : Z) : string := NilZero.string_of_int (Z.to_int n).

Definition safe_integer (n : Z) : bool := (Z.abs n <=? 2 ^ 53)%Z.

Definition to_string (v : Value) : string :=
  match v with
  | Undefined => "undefined"
  | Str s => s
  | Num n => string_of_Z n
  end.

Definition is_upper (c : ascii) : bool :=
  let n := N_of_ascii c in (65 <=? n)%N && (n <=? 90)%N.

Definition lower_char (c : ascii) : ascii :=
  if is_upper c then ascii_of_N (N_of_ascii c + 32) else c.

(** [String.prototype.toLowerCase], exact on ASCII strings. *)
Fixpoint toLowerCase (s : string) : string :=
  match s with
  | EmptyString => EmptyString
  | String c s' => String (lower_char c) (toLowerCase s')
  end.

(** A string of ASCII characters only. *)
Fixpoint ascii_only (s : string) : bool :=
  match s with
  | EmptyString => true
  | String c s' => (N_of_ascii c <? 128)%N && ascii_only s'
  end.

(** A string with no upper-case letter [A-Z]. *)
Fixpoint all_lowercase (s : string) : bool :=
  match s with
  | EmptyString => true
  | String c s' => negb (is_upper c) && all_lowercase s'
  end.

(** The method call [v.toLowerCase()] on an arbitrary value; [expr] is the
    source text of the receiver, which V8 puts in the message. *)
Definition undefined_dereference : Error :=
  mkError "TypeError"
    "Cannot read properties of undefined (reading 'toLowerCase')".

Definition call_toLowerCase (expr : string) (v : Value) : Result string :=
  match v with
  | Str s => Ok (toLowerCase s)
  | Undefined => Throw undefined_dereference
  | Num _ =>
      Throw (mkError "TypeError" (expr ++ ".toLowerCase is not a function"))
  end.

End Js.

Import Js.

(** Sequencing of statements that may throw: [x ← r; k]. *)
#[global] Instance Result_bind : MBind Result := λ A B k r, bind r k.

(** ** The construct tree's context *)

Abbreviation Context := (gmap string Value).

Definition tryGetContext (ctx : Context) (key : string) : Value :=
  default Undefined (ctx !! key).

Definition setContext (key : string) (v : Value) (ctx : Context) : Context :=
  <[key := v]> ctx.

(** [package.json], parsed: the two properties the app reads. *)
Record PackageJson : Type := mkPackageJson {
  pkg_name : Value;
  pkg_version : Value
}.

(** The two variables of [process.env] the app reads. *)
Record ProcessEnv : Type := mkProcessEnv {
  CDK_DEFAULT_ACCOUNT : Value;
  CDK_DEFAULT_REGION : Value
}.

(** ** The app entry point: context resolution *)

(** The three constants the entry point computes, and the context after the
    three [setContext] calls. *)
Record AppContext : Type := mkAppContext {
  project : Value;
  version : Value;
  environment : Value;
  context : Context
}.

Definition resolveContext (ctx0 : Context) (packageJson : PackageJson)
  : AppContext :=
  let project :=
    if truthy (tryGetContext ctx0 "project")
    then tryGetContext ctx0 "project"
    else pkg_name packageJson in
  let ctx1 := setContext "project" project ctx0 in
  let version :=
    if truthy (tryGetContext ctx1 "version")
    then tryGetContext ctx1 "version"
    else pkg_version packageJson in
  let ctx2 := setContext "version" version ctx1 in
  let environment :=
    if truthy (tryGetContext ctx2 "environment")
    then tryGetContext ctx2 "environment"
    else Str "dev" in
  let ctx3 := setContext "environment" environment ctx2 in
  mkAppContext project version environment ctx3.

(** The ids given to the three stacks:
    [`${environment}-${project}-ecr`.toLowerCase()] and its two siblings. *)
Definition ecrStackId (environment project : Value) : string :=
  toLowerCase (to_string environment ++ "-" ++ to_string project ++ "-ecr").

Definition ecsStackId (environment project : Value) : string :=
  toLowerCase (to_string environment ++ "-" ++ to_string project ++ "-ecs").

Definition observabilityStackId (environment project : Value) : string :=
  toLowerCase
    (to_string environment ++ "-" ++ to_string project ++ "-observability").

(** ** The library boundary *)

(** [StackProps] as the entry point fills them; a stack built on its own
    may be given none. *)
Record StackProps : Type := mkStackProps {
  description : string;
  env_account : Value;
  env_region : Value
}.

(** The calls into the CDK library, with the arguments the repository's
    code computes for them. *)
Inductive LibCall : Type :=
  | Stack_super (id : string) (props : option StackProps)
  | Tags_of
  | Tags_add (key value : string)
  | new_Repository (repositoryName : string)
  | new_CfnOutput (id : string) (value exportName : option string)
  | new_Vpc
  | new_Cluster
  | new_FargateTaskDefinition
  | Repository_fromRepositoryName (repositoryName : Value)
  | ContainerImage_fromEcrRepository (tag : string)
  | LogDrivers_awsLogs (streamPrefix : string)
  | new_ContainerDefinition (containerName : string)
  | addPortMappings (containerPort : Z)
  | new_ApplicationLoadBalancedFargateService (desiredCount : Value)
  | setAttribute (key value : string)
  | Duration_seconds (amount : Z)
  | configureHealthCheck
  | new_LoadBalancerV2Origin
  | new_Distribution (comment : string)
  | new_CfnGroup (name : string) (tagFilters : list (string * list string))
  | new_CfnIdentityPool
  | new_FederatedPrincipal
  | new_Role
  | new_PolicyStatement (appMonitor : string)
  | addToPolicy
  | new_CfnIdentityPoolRoleAttachment
  | new_CfnAppMonitor (domain : Value) (name : string).

(** The library: given the calls that have returned so far and the next
    call, the error that call throws, if it throws. *)
Definition Library : Type := list LibCall -> LibCall -> option Error.

(** A library that accepts every call. *)
Definition accept_all : Library := fun _ _ => None.

(** The calls a piece of code makes, in order, up to its own first
    exception, and the outcome of its own code. *)
Record Script (A : Type) : Type := mkScript {
  calls : list LibCall;
  result : Result A
}.
Arguments mkScript {A} calls result.
Arguments calls {A} s.
Arguments result {A} s.

Definition script_bind {A B} (s : Script A) (k : A -> Script B) : Script B :=
  match result s with
  | Ok a =>
      let rest := k a in
      mkScript (calls s ++ calls rest)%list (result rest)
  | Throw e => mkScript (calls s) (Throw e)
  end.

#[global] Instance Script_bind : MBind Script := λ A B k s, script_bind s k.

(** A library call. *)
Definition call (c : LibCall) : Script unit := mkScript [c] (Ok tt).

(** An expression of the repository's own code. *)
Definition own {A} (r : Result A) : Script A := mkScript [] r.

Definition ret {A} (a : A) : Script A := mkScript [] (Ok a).

(** The first error the library throws on a sequence of calls. *)
Fixpoint first_throw (lib : Library) (returned : list LibCall)
    (cs : list LibCall) : option Error :=
  match cs with
  | [] => None
  | c :: cs' =>
      match lib returned c with
      | Some e => Some e
      | None => first_throw lib (returned ++ [c])%list cs'
      end
  end.

(** A script played against a library: the first library error, else the
    outcome of the code itself. *)
Definition run {A} (lib : Library) (s : Script A) : Result A :=
  match first_throw lib [] (calls s) with
  | Some e => Throw e
  | None => result s
  end.

(** ** The stacks *)

Abbreviation Tags := (list (string * string)).

(** [lib/ecr-stack.ts] *)
Record EcrSynth : Type := mkEcrSynth {
  ecr_id : string;
  ecr_tags : Tags;
  ecr_repositoryName : string
}.

Definition EcrStack (ctx : Context) (id : string)
    (props : option StackProps)
  : Script EcrSynth :=
  call (Stack_super id props);;
  let project := tryGetContext ctx "project" in
  let environment := tryGetContext ctx "environment" in
  call Tags_of;;
  tagProject ← own (call_toLowerCase "project" project);
  call (Tags_add "project" tagProject);;
  call Tags_of;;
  tagEnvironment ← own (call_toLowerCase "environment" environment);
  call (Tags_add "environment" tagEnvironment);;
  projectLower ← own (call_toLowerCase "project" project);
  let repositoryName :=
    to_string environment ++ "-" ++ projectLower ++ "-ecr-repository" in
  call (new_Repository repositoryName);;
  call (new_CfnOutput "RepositoryURI" None None);;
  ret {| ecr_id := id;
         ecr_tags := [("project", tagProject); ("environment", tagEnvironment)];
         ecr_repositoryName := repositoryName |}.

(** [lib/ecs-stack.ts] *)
Record EcsSynth : Type := mkEcsSynth {
  ecs_id : string;
  ecs_tags : Tags;
  ecs_ecrRepoName : Value;        (* argument of Repository.fromRepositoryName *)
  ecs_ecrImageTag : string;       (* ecrImageTag.toString() *)
  ecs_containerName : string;
  ecs_streamPrefix : string;
  ecs_desiredCount : Value;
  ecs_comment : string
}.

Definition EcsStack (ctx : Context) (id : string)
    (props : option StackProps)
  : Script EcsSynth :=
  call (Stack_super id props);;
  let project := tryGetContext ctx "project" in
  let environment := tryGetContext ctx "environment" in
  let desiredCount := tryGetContext ctx "desiredCount" in
  call Tags_of;;
  tagProject ← own (call_toLowerCase "project" project);
  call (Tags_add "project" tagProject);;
  call Tags_of;;
  tagEnvironment ← own (call_toLowerCase "environment" environment);
  call (Tags_add "environment" tagEnvironment);;
  call new_Vpc;;
  call new_Cluster;;
  call new_FargateTaskDefinition;;
  let ecrRepoName := tryGetContext ctx "ecrRepoName" in
  let ecrImageTag := or_else (tryGetContext ctx "ecrImageTag") (Str "latest") in
  call (Repository_fromRepositoryName ecrRepoName);;
  let containerName :=
    toLowerCase
      (to_string environment ++ "-" ++ to_string project ++ "-container") in
  call (ContainerImage_fromEcrRepository (to_string ecrImageTag));;
  streamPrefix ← own (call_toLowerCase "project" project);
  call (LogDrivers_awsLogs streamPrefix);;
  call (new_ContainerDefinition containerName);;
  call (addPortMappings 3000);;
  let count := or_else desiredCount (Num 1) in
  call (new_ApplicationLoadBalancedFargateService count);;
  call (setAttribute "deregistration_delay.timeout_seconds" "30");;
  call (Duration_seconds 5);;
  call (Duration_seconds 10);;
  call configureHealthCheck;;
  call (new_CfnOutput "LoadBalancerDNS" None None);;
  commentEnvironment ← own (call_toLowerCase "environment" environment);
  commentProject ← own (call_toLowerCase "project" project);
  let comment :=
    "The " ++ commentEnvironment ++ " Cloud Front Distribution for the "
    ++ commentProject ++ " service." in
  call new_LoadBalancerV2Origin;;
  call (new_Distribution comment);;
  call (new_CfnOutput "CloudFrontDomainName" None None);;
  ret {| ecs_id := id;
         ecs_tags := [("project", tagProject); ("environment", tagEnvironment)];
         ecs_ecrRepoName := ecrRepoName;
         ecs_ecrImageTag := to_string ecrImageTag;
         ecs_containerName := containerName;
         ecs_streamPrefix := streamPrefix;
         ecs_desiredCount := count;
         ecs_comment := comment |}.

(** [lib/observability-stack.ts] *)
Record ObservabilitySynth : Type := mkObservabilitySynth {
  obs_id : string;
  obs_tags : Tags;
  obs_groupName : string;
  obs_tagFilters : list (string * list string);   (* key, values *)
  obs_outputValue : string;
  obs_exportName : string;
  obs_rumResourceName : string;   (* the segment after "appmonitor/" *)
  obs_monitorDomain : Value;
  obs_monitorName : string
}.

Definition ObservabilityStack (ctx : Context) (id : string)
    (props : option StackProps) : Script ObservabilitySynth :=
  call (Stack_super id props);;
  let project := tryGetContext ctx "project" in
  let environment := tryGetContext ctx "environment" in
  let domainName := tryGetContext ctx "domainName" in
  call Tags_of;;
  tagProject ← own (call_toLowerCase "project" project);
  call (Tags_add "project" tagProject);;
  call Tags_of;;
  tagEnvironment ← own (call_toLowerCase "environment" environment);
  call (Tags_add "environment" tagEnvironment);;
  let groupName :=
    toLowerCase (to_string environment ++ "-" ++ to_string project) in
  let tagFilters :=
    [("project", [to_string project]);
     ("environment", [to_string environment])] in
  call (new_CfnGroup groupName tagFilters);;
  let outputValue :=
    toLowerCase (to_string environment ++ "-" ++ to_string project) in
  let exportName :=
    toLowerCase
      (to_string environment ++ "-" ++ to_string project
       ++ "-resource-group") in
  call (new_CfnOutput "ResourceGroupNameOutput"
          (Some outputValue) (Some exportName));;
  call new_CfnIdentityPool;;
  call new_FederatedPrincipal;;
  call new_Role;;
  rumResourceName ← own (call_toLowerCase "project" project);
  call (new_PolicyStatement rumResourceName);;
  call addToPolicy;;
  call new_CfnIdentityPoolRoleAttachment;;
  let domain := or_else domainName (Str "localhost") in
  monitorName ← own (call_toLowerCase "project" project);
  call (new_CfnAppMonitor domain monitorName);;
  ret {| obs_id := id;
         obs_tags := [("project", tagProject); ("environment", tagEnvironment)];
         obs_groupName := groupName;
         obs_tagFilters := tagFilters;
         obs_outputValue := outputValue;
         obs_exportName := exportName;
         obs_rumResourceName := rumResourceName;
         obs_monitorDomain := domain;
         obs_monitorName := monitorName |}.

(** ** The whole program *)

Record AppSynth : Type := mkAppSynth {
  app_context : AppContext;
  app_ecr : EcrSynth;
  app_ecs : EcsSynth;
  app_observability : ObservabilitySynth
}.

(** The props the entry point builds for the three stacks. *)
Definition ecrProps (env : ProcessEnv) (project : Value) : StackProps :=
  mkStackProps ("Container Registry for " ++ to_string project ++ " on ECS")
    (CDK_DEFAULT_ACCOUNT env) (CDK_DEFAULT_REGION env).

Definition ecsProps (env : ProcessEnv) (project : Value) : StackProps :=
  mkStackProps ("Deployment Stack for " ++ to_string project ++ " on ECS")
    (CDK_DEFAULT_ACCOUNT env) (CDK_DEFAULT_REGION env).

Definition observabilityProps (env : ProcessEnv) (project : Value)
  : StackProps :=
  mkStackProps
    ("Observability Resources for " ++ to_string project ++ " on ECS")
    (CDK_DEFAULT_ACCOUNT env) (CDK_DEFAULT_REGION env).

Definition main (env : ProcessEnv) (ctx0 : Context)
    (packageJson : PackageJson) : Script AppSynth :=
  let r := resolveContext ctx0 packageJson in
  ecr ← EcrStack (context r) (ecrStackId (environment r) (project r))
          (Some (ecrProps env (project r)));
  ecs ← EcsStack (context r) (ecsStackId (environment r) (project r))
          (Some (ecsProps env (project r)));
  obs ← ObservabilityStack (context r)
          (observabilityStackId (environment r) (project r))
          (Some (observabilityProps env (project r)));
  ret (mkAppSynth r ecr ecs obs).

(** The tags a sequence of calls adds, in order. *)
Fixpoint tag_calls (cs : list LibCall) : Tags :=
  match cs with
  | [] => []
  | Tags_add key value :: rest => (key, value) :: tag_calls rest
  | _ :: rest => tag_calls rest
  end.

(** The lookup key and the applied tag of a unit, for a given tag name. *)
Fixpoint tag_value (key : string) (tags : Tags) : option string :=
  match tags with
  | [] => None
  | (k, v) :: rest => if String.eqb k key then Some v else tag_value key rest
  end.

Fixpoint filter_values (key : string) (fs : list (string * list string))
  : option (list string) :=
  match fs with
  | [] => None
  | (k, vs) :: rest =>
      if String.eqb k key then Some vs else filter_values key rest
  end.

(** The tag pair every stack is meant to carry. *)
Definition canonical_tags (p e : string) : Tags :=
  [("project", toLowerCase p); ("environment", toLowerCase e)].

(** An error of the class ConfigurationError. *)
Definition is_ConfigurationError (e : Error) : Prop :=
  name e = "ConfigurationError".

(** The TypeError of calling [toLowerCase] on a number held in [expr]. *)
Definition not_a_function (expr : string) : Error :=
  mkError "TypeError" (expr ++ ".toLowerCase is not a function").

(** The three stacks of a run, without the resolved context. *)
Definition stacks_of (outcome : Result AppSynth)
  : Result (EcrSynth * EcsSynth * ObservabilitySynth) :=
  match outcome with
  | Ok app => Ok (app_ecr app, app_ecs app, app_observability app)
  | Throw err => Throw err
  end.

(** The context keys the three stacks read. *)
Definition stack_keys : list string :=
  ["project"; "environment"; "desiredCount"; "ecrRepoName"; "ecrImageTag";
   "domainName"].

(** The context keys the entry point resolves. *)
Definition resolved_keys : list string :=
  ["project"; "version"; "environment"].

(** A string without the separator the names are joined with. *)
Fixpoint no_hyphen (s : string) : bool :=
  match s with
  | EmptyString => true
  | String c s' => negb (Ascii.eqb c "-") && no_hyphen s'
  end.

(** The calls a constructor has made when its code reaches the lower-casing
    of the project, and of the environment. *)
Definition before_project_tag (id : string) (props : option StackProps)
  : list LibCall := [Stack_super id props; Tags_of].

Definition before_environment_tag (id : string)
    (props : option StackProps)
    (p : string) : list LibCall :=
  [Stack_super id props; Tags_of; Tags_add "project" (toLowerCase p);
   Tags_of].

(** ** Running the model on small inputs *)

Definition svc_manifest : PackageJson :=
  mkPackageJson (Str "svc") (Str "1.0.0").

Definition no_env : ProcessEnv := mkProcessEnv Undefined Undefined.

(** A library that rejects a stack whose id does not start with a letter,
    as an example of a call that throws before the code's own exception. *)
Definition rejects_digit_ids : Library :=
  fun _ c =>
    match c with
    | Stack_super (String c0 _) _ =>
        if (N_of_ascii c0 <? 65)%N
        then Some (mkError "Error" "invalid stack name") else None
    | _ => None
    end.

Example run_defaults :
  run accept_all (main no_env ∅ svc_manifest) =
  Ok (mkAppSynth
        (mkAppContext (Str "svc") (Str "1.0.0") (Str "dev")
           (<["environment" := Str "dev"]>
              (<["version" := Str "1.0.0"]>
                 (<["project" := Str "svc"]> ∅))))
        (mkEcrSynth "dev-svc-ecr"
           [("project", "svc"); ("environment", "dev")]
           "dev-svc-ecr-repository")
        (mkEcsSynth "dev-svc-ecs"
           [("project", "svc"); ("environment", "dev")]
           Undefined "latest" "dev-svc-container" "svc" (Num 1)
           "The dev Cloud Front Distribution for the svc service.")
        (mkObservabilitySynth "dev-svc-observability"
           [("project", "svc"); ("environment", "dev")]
           "dev-svc"
           [("project", ["svc"]); ("environment", ["dev"])]
           "dev-svc" "dev-svc-resource-group" "svc" (Str "localhost") "svc")).
Proof. vm_compute. reflexivity. Qed.

Example run_numeric_environment :
  run rejects_digit_ids
    (main no_env {[ "environment" := Num 5 ]} svc_manifest)
  = Throw (mkError "Error" "invalid stack name") /\
  result (main no_env {[ "environment" := Num 5 ]} svc_manifest)
  = Throw (not_a_function "environment").
Proof. split; vm_compute; reflexivity. Qed.
(** ** Strings *)

Section Strings.

Lemma toLowerCase_app (a b : string) :
  toLowerCase (a ++ b) = toLowerCase a ++ toLowerCase b.
Proof.
  induction a as [|c a IH]; simpl; [reflexivity|]. now rewrite IH.
Qed.

Lemma lower_char_fixed (c : ascii) :
  lower_char c = c <-> is_upper c = false.
Proof.
  destruct c as [[] [] [] [] [] [] [] []]; vm_compute; split; congruence.
Qed.

Lemma toLowerCase_fixed (s : string) :
  toLowerCase s = s <-> all_lowercase s = true.
Proof.
  induction s as [|c s IH]; simpl.
  - split; reflexivity.
  - rewrite andb_true_iff, negb_true_iff, <- IH, <- lower_char_fixed.
    split.
    + intros H. injection H as Hc Hs. split; assumption.
    + intros [Hc Hs]. now rewrite Hc, Hs.
Qed.

Lemma toLowerCase_idempotent (s : string) :
  toLowerCase (toLowerCase s) = toLowerCase s.
Proof.
  induction s as [|c s IH]; simpl; [reflexivity|]. rewrite IH. f_equal.
  destruct c as [[] [] [] [] [] [] [] []]; reflexivity.
Qed.

Lemma string_app_inv_head (a b c : string) : a ++ b = a ++ c -> b = c.
Proof.
  induction a as [|x a IH]; simpl; intros H; [assumption|].
  injection H as H. now apply IH.
Qed.

End Strings.

(** ** More on strings *)

Section MoreStrings.

Lemma string_app_cons (x : ascii) (a b : string) :
  String x a ++ b = String x (a ++ b).
Proof. reflexivity. Qed.

Lemma string_app_assoc (a b c : string) : (a ++ b) ++ c = a ++ b ++ c.
Proof.
  induction a as [|x a IH]; [reflexivity|].
  rewrite !string_app_cons. now rewrite IH.
Qed.

Lemma string_app_length (a b : string) :
  String.length (a ++ b) = String.length a + String.length b.
Proof.
  induction a as [|x a IH]; [reflexivity|].
  rewrite string_app_cons. simpl. now rewrite IH.
Qed.

Lemma string_app_inv_tail (a b c : string) : a ++ c = b ++ c -> a = b.
Proof.
  intros H.
  assert (Hlen : String.length a = String.length b).
  { apply (f_equal String.length) in H.
    rewrite !string_app_length in H. lia. }
  revert b H Hlen. induction a as [|x a IH]; intros [|y b] H Hlen;
    try discriminate; [reflexivity|].
  rewrite !string_app_cons in H.
  injection H as Hx H. injection Hlen as Hlen. f_equal; [assumption|].
  now apply IH.
Qed.

Lemma toLowerCase_all_lowercase (s : string) :
  all_lowercase (toLowerCase s) = true.
Proof. apply toLowerCase_fixed, toLowerCase_idempotent. Qed.

Lemma all_lowercase_app (a b : string) :
  all_lowercase (a ++ b) = all_lowercase a && all_lowercase b.
Proof.
  induction a as [|c a IH]; [reflexivity|].
  rewrite string_app_cons. simpl. rewrite IH. now rewrite andb_assoc.
Qed.

Lemma lower_char_hyphen (c : ascii) :
  Ascii.eqb (lower_char c) "-" = Ascii.eqb c "-".
Proof. destruct c as [[] [] [] [] [] [] [] []]; reflexivity. Qed.

Lemma toLowerCase_no_hyphen (s : string) :
  no_hyphen (toLowerCase s) = no_hyphen s.
Proof.
  induction s as [|c s IH]; simpl; [reflexivity|].
  now rewrite lower_char_hyphen, IH.
Qed.

(** Two strings without a hyphen, each followed by a hyphen and a rest, are
    split the same way. *)
Lemma split_at_first_hyphen (a b x y : string) :
  no_hyphen a = true -> no_hyphen b = true ->
  a ++ "-" ++ x = b ++ "-" ++ y -> a = b /\ x = y.
Proof.
  revert b. induction a as [|c a IH]; intros [|d b] Ha Hb H;
    rewrite ?string_app_cons in H; change ("" ++ ?s) with s in H;
    simpl in Ha, Hb.
  - injection H as H. auto.
  - injection H as Hd _. subst d. simpl in Hb. discriminate.
  - injection H as Hc _. subst c. simpl in Ha. discriminate.
  - injection H as Hc H. subst d.
    apply andb_true_iff in Ha as [_ Ha]. apply andb_true_iff in Hb as [_ Hb].
    destruct (IH b Ha Hb H) as [-> ->]. auto.
Qed.

End MoreStrings.

(** ** What the entry point leaves in the context *)

Section Resolution.

Variable ctx0 : Context.
Variable packageJson : PackageJson.

Let r := resolveContext ctx0 packageJson.

Lemma resolve_project_eq :
  project r =
  if truthy (tryGetContext ctx0 "project")
  then tryGetContext ctx0 "project" else pkg_name packageJson.
Proof. reflexivity. Qed.

Lemma resolve_version_eq :
  version r =
  if truthy (tryGetContext ctx0 "version")
  then tryGetContext ctx0 "version" else pkg_version packageJson.
Proof.
  unfold r, resolveContext, tryGetContext, setContext; simpl.
  rewrite lookup_insert_ne by discriminate. reflexivity.
Qed.

Lemma resolve_environment_eq :
  environment r =
  if truthy (tryGetContext ctx0 "environment")
  then tryGetContext ctx0 "environment" else Str "dev".
Proof.
  unfold r, resolveContext, tryGetContext, setContext; simpl.
  rewrite !lookup_insert_ne by discriminate. reflexivity.
Qed.

Lemma context_project : tryGetContext (context r) "project" = project r.
Proof.
  unfold r, resolveContext, tryGetContext, setContext; simpl.
  rewrite !lookup_insert_ne by discriminate.
  rewrite lookup_insert_eq. reflexivity.
Qed.

Lemma context_version : tryGetContext (context r) "version" = version r.
Proof.
  unfold r, resolveContext, tryGetContext, setContext; simpl.
  rewrite lookup_insert_ne by discriminate.
  rewrite lookup_insert_eq. reflexivity.
Qed.

Lemma context_environment :
  tryGetContext (context r) "environment" = environment r.
Proof.
  unfold r, resolveContext, tryGetContext, setContext; simpl.
  rewrite lookup_insert_eq. reflexivity.
Qed.

Lemma context_other (key : string) :
  key <> "project" -> key <> "version" -> key <> "environment" ->
  tryGetContext (context r) key = tryGetContext ctx0 key.
Proof.
  intros Hp Hv He.
  unfold r, resolveContext, tryGetContext, setContext; simpl.
  rewrite !lookup_insert_ne by congruence. reflexivity.
Qed.

End Resolution.


(** ** Scripts and runs *)

Section Scripts.

Context {A : Type}.

Lemma first_throw_Some (lib : Library) (cs returned : list LibCall)
    (err : Error) :
  first_throw lib returned cs = Some err ->
  exists returned' c, In c cs /\ lib returned' c = Some err.
Proof.
  revert returned. induction cs as [|c cs IH]; simpl; intros returned H;
    [discriminate|].
  destruct (lib returned c) as [e|] eqn:Hc.
  - injection H as ->. exists returned, c. auto.
  - destruct (IH _ H) as (r' & c' & Hin & Hl). exists r', c'. auto.
Qed.

Lemma run_Ok (lib : Library) (s : Script A) (a : A) :
  run lib s = Ok a -> result s = Ok a.
Proof.
  unfold run. destruct (first_throw lib [] (calls s)); [discriminate|].
  auto.
Qed.

Lemma run_Throw (lib : Library) (s : Script A) (err : Error) :
  run lib s = Throw err ->
  result s = Throw err \/
  exists returned c, In c (calls s) /\ lib returned c = Some err.
Proof.
  unfold run. destruct (first_throw lib [] (calls s)) as [e|] eqn:H.
  - intros E. injection E as ->. right. now apply first_throw_Some in H.
  - auto.
Qed.

Lemma run_accept_all (s : Script A) : run accept_all s = result s.
Proof.
  unfold run.
  assert (H : forall cs returned, first_throw accept_all returned cs = None).
  { induction cs as [|c cs IH]; simpl; intros; [reflexivity | apply IH]. }
  now rewrite H.
Qed.

End Scripts.

(** ** The stacks on string-valued project and environment *)

Section Stacks.

Variable ctx : Context.
Variables p e : string.
Hypothesis Hproject : tryGetContext ctx "project" = Str p.
Hypothesis Henvironment : tryGetContext ctx "environment" = Str e.

Lemma EcrStack_ok (id : string) (props : option StackProps) :
  EcrStack ctx id props =
  mkScript
    [Stack_super id props;
     Tags_of; Tags_add "project" (toLowerCase p);
     Tags_of; Tags_add "environment" (toLowerCase e);
     new_Repository (e ++ "-" ++ toLowerCase p ++ "-ecr-repository");
     new_CfnOutput "RepositoryURI" None None]
    (Ok (mkEcrSynth id (canonical_tags p e)
           (e ++ "-" ++ toLowerCase p ++ "-ecr-repository"))).
Proof. unfold EcrStack. rewrite Hproject, Henvironment. reflexivity. Qed.

Lemma EcsStack_ok (id : string) (props : option StackProps) :
  EcsStack ctx id props =
  mkScript
    [Stack_super id props;
     Tags_of; Tags_add "project" (toLowerCase p);
     Tags_of; Tags_add "environment" (toLowerCase e);
     new_Vpc; new_Cluster; new_FargateTaskDefinition;
     Repository_fromRepositoryName (tryGetContext ctx "ecrRepoName");
     ContainerImage_fromEcrRepository
       (to_string (or_else (tryGetContext ctx "ecrImageTag") (Str "latest")));
     LogDrivers_awsLogs (toLowerCase p);
     new_ContainerDefinition (toLowerCase (e ++ "-" ++ p ++ "-container"));
     addPortMappings 3000;
     new_ApplicationLoadBalancedFargateService
       (or_else (tryGetContext ctx "desiredCount") (Num 1));
     setAttribute "deregistration_delay.timeout_seconds" "30";
     Duration_seconds 5; Duration_seconds 10; configureHealthCheck;
     new_CfnOutput "LoadBalancerDNS" None None;
     new_LoadBalancerV2Origin;
     new_Distribution
       ("The " ++ toLowerCase e ++ " Cloud Front Distribution for the "
        ++ toLowerCase p ++ " service.");
     new_CfnOutput "CloudFrontDomainName" None None]
    (Ok (mkEcsSynth id (canonical_tags p e)
           (tryGetContext ctx "ecrRepoName")
           (to_string
              (or_else (tryGetContext ctx "ecrImageTag") (Str "latest")))
           (toLowerCase (e ++ "-" ++ p ++ "-container"))
           (toLowerCase p)
           (or_else (tryGetContext ctx "desiredCount") (Num 1))
           ("The " ++ toLowerCase e ++ " Cloud Front Distribution for the "
            ++ toLowerCase p ++ " service."))).
Proof. unfold EcsStack. rewrite Hproject, Henvironment. reflexivity. Qed.

Lemma ObservabilityStack_ok (id : string) (props : option StackProps) :
  ObservabilityStack ctx id props =
  mkScript
    [Stack_super id props;
     Tags_of; Tags_add "project" (toLowerCase p);
     Tags_of; Tags_add "environment" (toLowerCase e);
     new_CfnGroup (toLowerCase (e ++ "-" ++ p))
       [("project", [p]); ("environment", [e])];
     new_CfnOutput "ResourceGroupNameOutput"
       (Some (toLowerCase (e ++ "-" ++ p)))
       (Some (toLowerCase (e ++ "-" ++ p ++ "-resource-group")));
     new_CfnIdentityPool; new_FederatedPrincipal; new_Role;
     new_PolicyStatement (toLowerCase p); addToPolicy;
     new_CfnIdentityPoolRoleAttachment;
     new_CfnAppMonitor
       (or_else (tryGetContext ctx "domainName") (Str "localhost"))
       (toLowerCase p)]
    (Ok (mkObservabilitySynth id (canonical_tags p e)
           (toLowerCase (e ++ "-" ++ p))
           [("project", [p]); ("environment", [e])]
           (toLowerCase (e ++ "-" ++ p))
           (toLowerCase (e ++ "-" ++ p ++ "-resource-group"))
           (toLowerCase p)
           (or_else (tryGetContext ctx "domainName") (Str "localhost"))
           (toLowerCase p))).
Proof.
  unfold ObservabilityStack. rewrite Hproject, Henvironment. reflexivity.
Qed.

End Stacks.

(** The code of a stack built over a context that lacks a string under
    ["project"] or ["environment"] throws at its tag lines, after the calls
    that precede them. *)
Section StackFailures.

Variable ctx : Context.

Lemma stacks_without_project (err : Error) :
  call_toLowerCase "project" (tryGetContext ctx "project") = Throw err ->
  forall id props,
    EcrStack ctx id props
      = mkScript (before_project_tag id props) (Throw err) /\
    EcsStack ctx id props
      = mkScript (before_project_tag id props) (Throw err) /\
    ObservabilityStack ctx id props
      = mkScript (before_project_tag id props) (Throw err).
Proof.
  intros H id props. unfold EcrStack, EcsStack, ObservabilityStack.
  destruct (tryGetContext ctx "project"); simpl in H;
    try discriminate H; injection H as <-; repeat split.
Qed.

Lemma stacks_without_environment (p : string) (err : Error) :
  tryGetContext ctx "project" = Str p ->
  call_toLowerCase "environment" (tryGetContext ctx "environment")
    = Throw err ->
  forall id props,
    EcrStack ctx id props
      = mkScript (before_environment_tag id props p) (Throw err) /\
    EcsStack ctx id props
      = mkScript (before_environment_tag id props p) (Throw err) /\
    ObservabilityStack ctx id props
      = mkScript (before_environment_tag id props p) (Throw err).
Proof.
  intros Hp H id props. unfold EcrStack, EcsStack, ObservabilityStack.
  rewrite Hp.
  destruct (tryGetContext ctx "environment"); simpl in H;
    try discriminate H; injection H as <-; repeat split.
Qed.

Lemma call_toLowerCase_cases (expr : string) (v : Value) :
  (exists s, v = Str s) \/
  (exists err, call_toLowerCase expr v = Throw err /\
               name err = "TypeError" /\
               (v = Undefined -> err = undefined_dereference) /\
               (forall n, v = Num n ->
                          err = mkError "TypeError"
                                  (expr ++ ".toLowerCase is not a function"))).
Proof.
  destruct v as [|s|n]; [right | left; eauto | right]; eexists;
    (split; [reflexivity|]); (split; [reflexivity|]);
    split; intros; try discriminate; reflexivity.
Qed.

(** Either the code of all three constructors throws the same TypeError, or
    the context holds strings under both keys. *)
Lemma throw_or_strings :
  (exists err,
      name err = "TypeError" /\
      forall id props,
        result (EcrStack ctx id props) = Throw err /\
        result (EcsStack ctx id props) = Throw err /\
        result (ObservabilityStack ctx id props) = Throw err) \/
  (exists p e,
      tryGetContext ctx "project" = Str p /\
      tryGetContext ctx "environment" = Str e).
Proof.
  destruct (call_toLowerCase_cases "project" (tryGetContext ctx "project"))
    as [[p Hp] | (err & Herr & Hname & _)].
  - destruct (call_toLowerCase_cases "environment"
                (tryGetContext ctx "environment"))
      as [[e He] | (err & Herr & Hname & _)].
    + right. eauto.
    + left. exists err. split; [exact Hname|]. intros id props.
      destruct (stacks_without_environment p err Hp Herr id props)
        as (-> & -> & ->). repeat split.
  - left. exists err. split; [exact Hname|]. intros id props.
    destruct (stacks_without_project err Herr id props) as (-> & -> & ->).
    repeat split.
Qed.

(** The calls of the three constructors, by what the context holds. *)
Lemma stack_calls_cases (id : string) (props : option StackProps) :
  (exists p e,
      tryGetContext ctx "project" = Str p /\
      tryGetContext ctx "environment" = Str e) \/
  (calls (EcrStack ctx id props) = before_project_tag id props /\
   calls (EcsStack ctx id props) = before_project_tag id props /\
   calls (ObservabilityStack ctx id props) = before_project_tag id props) \/
  (exists p,
      calls (EcrStack ctx id props) = before_environment_tag id props p /\
      calls (EcsStack ctx id props) = before_environment_tag id props p /\
      calls (ObservabilityStack ctx id props)
        = before_environment_tag id props p).
Proof.
  destruct (call_toLowerCase_cases "project" (tryGetContext ctx "project"))
    as [[p Hp] | (err & Herr & _)].
  - destruct (call_toLowerCase_cases "environment"
                (tryGetContext ctx "environment"))
      as [[e He] | (err & Herr & _)].
    + left. eauto.
    + right. right. exists p.
      destruct (stacks_without_environment p err Hp Herr id props)
        as (-> & -> & ->). repeat split.
  - right. left.
    destruct (stacks_without_project err Herr id props) as (-> & -> & ->).
    repeat split.
Qed.

End StackFailures.

(** ** The whole program *)

Lemma script_bind_calls {A B} (s : Script A) (k : A -> Script B)
    (c : LibCall) :
  In c (calls (script_bind s k)) ->
  In c (calls s) \/ exists a, result s = Ok a /\ In c (calls (k a)).
Proof.
  unfold script_bind. destruct (result s) as [a|err]; cbv zeta; simpl.
  - rewrite in_app_iff. intros [H | H]; eauto.
  - auto.
Qed.

Section Main.

Variable env : ProcessEnv.
Variable ctx0 : Context.
Variable packageJson : PackageJson.

Let r := resolveContext ctx0 packageJson.

(** Every call of the program is a call of one of its three stacks. *)
Lemma main_calls (c : LibCall) :
  In c (calls (main env ctx0 packageJson)) ->
  In c (calls (EcrStack (context r) (ecrStackId (environment r) (project r))
                 (Some (ecrProps env (project r))))) \/
  In c (calls (EcsStack (context r) (ecsStackId (environment r) (project r))
                 (Some (ecsProps env (project r))))) \/
  In c (calls (ObservabilityStack (context r)
                 (observabilityStackId (environment r) (project r))
                 (Some (observabilityProps env (project r))))).
Proof.
  unfold main. fold r. intros H.
  apply script_bind_calls in H as [H | (ecr & _ & H)]; [auto|].
  apply script_bind_calls in H as [H | (ecs & _ & H)]; [auto|].
  apply script_bind_calls in H as [H | (obs & _ & H)]; [auto|].
  destruct H.
Qed.

(** The outcome of the program's own code, by the values the project and
    the environment resolve to. *)
Lemma main_result :
  result (main env ctx0 packageJson) =
  match project r, environment r with
  | Undefined, _ => Throw undefined_dereference
  | Num _, _ => Throw (not_a_function "project")
  | Str _, Undefined => Throw undefined_dereference
  | Str _, Num _ => Throw (not_a_function "environment")
  | Str p, Str e =>
      Ok (mkAppSynth r
            (mkEcrSynth (toLowerCase (e ++ "-" ++ p ++ "-ecr"))
               (canonical_tags p e)
               (e ++ "-" ++ toLowerCase p ++ "-ecr-repository"))
            (mkEcsSynth (toLowerCase (e ++ "-" ++ p ++ "-ecs"))
               (canonical_tags p e)
               (tryGetContext ctx0 "ecrRepoName")
               (to_string
                  (or_else (tryGetContext ctx0 "ecrImageTag") (Str "latest")))
               (toLowerCase (e ++ "-" ++ p ++ "-container"))
               (toLowerCase p)
               (or_else (tryGetContext ctx0 "desiredCount") (Num 1))
               ("The " ++ toLowerCase e
                ++ " Cloud Front Distribution for the "
                ++ toLowerCase p ++ " service."))
            (mkObservabilitySynth
               (toLowerCase (e ++ "-" ++ p ++ "-observability"))
               (canonical_tags p e)
               (toLowerCase (e ++ "-" ++ p))
               [("project", [p]); ("environment", [e])]
               (toLowerCase (e ++ "-" ++ p))
               (toLowerCase (e ++ "-" ++ p ++ "-resource-group"))
               (toLowerCase p)
               (or_else (tryGetContext ctx0 "domainName") (Str "localhost"))
               (toLowerCase p)))
  end.
Proof.
  pose proof (context_project ctx0 packageJson) as Cp.
  pose proof (context_environment ctx0 packageJson) as Ce.
  pose proof (context_other ctx0 packageJson) as Co.
  fold r in Cp, Ce, Co. unfold main. fold r.
  destruct (project r) as [|p|n] eqn:Hp.
  - unfold EcrStack. rewrite Cp. reflexivity.
  - destruct (environment r) as [|e|n] eqn:He.
    + unfold EcrStack. rewrite Cp, Ce. reflexivity.
    + rewrite (EcrStack_ok _ _ _ Cp Ce), (EcsStack_ok _ _ _ Cp Ce),
        (ObservabilityStack_ok _ _ _ Cp Ce).
      unfold ecrStackId, ecsStackId, observabilityStackId.
      rewrite !Co by discriminate. reflexivity.
    + unfold EcrStack. rewrite Cp, Ce. reflexivity.
  - unfold EcrStack. rewrite Cp. reflexivity.
Qed.

End Main.

(** A completed run: the project and the environment are strings and the
    result is the one the code computes. *)
Ltac invert_run H :=
  apply run_Ok in H; rewrite main_result in H;
  let p := fresh "p" in
  let e := fresh "e" in
  let Hp := fresh "Hproject" in
  let He := fresh "Henvironment" in
  destruct (project (resolveContext _ _)) as [|p|?] eqn:Hp;
    [discriminate H | | discriminate H];
  destruct (environment (resolveContext _ _)) as [|e|?] eqn:He;
    [discriminate H | | discriminate H];
  injection H as H; subst.

(** The code of the program throws nothing but a [TypeError]. *)
Lemma main_result_TypeError (env : ProcessEnv) (ctx0 : Context)
    (packageJson : PackageJson) (err : Error) :
  result (main env ctx0 packageJson) = Throw err -> name err = "TypeError".
Proof.
  rewrite main_result.
  destruct (project (resolveContext ctx0 packageJson));
    [| destruct (environment (resolveContext ctx0 packageJson)) |];
    intros H; try discriminate H; injection H as <-; reflexivity.
Qed.

(** ** The arguments the stacks hand to the library *)

Ltac split_calls H :=
  unfold before_project_tag, before_environment_tag in H;
  simpl in H; repeat (destruct H as [<- | H]); try contradiction.

(** Rewrite the calls of the three constructors to explicit lists, one case
    for each way the context can be. *)
Ltac stack_cases ctx id props :=
  let p := fresh "p" in
  let e := fresh "e" in
  let Hp := fresh "Hp" in
  let He := fresh "He" in
  let Hecr := fresh "Hecr" in
  let Hecs := fresh "Hecs" in
  let Hobs := fresh "Hobs" in
  destruct (stack_calls_cases ctx id props)
    as [(p & e & Hp & He) | [(Hecr & Hecs & Hobs)
                            | (p & Hecr & Hecs & Hobs)]];
    [ rewrite ?(EcrStack_ok ctx p e Hp He), ?(EcsStack_ok ctx p e Hp He),
        ?(ObservabilityStack_ok ctx p e Hp He)
    | rewrite ?Hecr, ?Hecs, ?Hobs
    | rewrite ?Hecr, ?Hecs, ?Hobs ].

Lemma EcrStack_call_args (ctx : Context) (id : string) (props : option StackProps)
    (c : LibCall) :
  In c (calls (EcrStack ctx id props)) ->
  (forall v, c <> Repository_fromRepositoryName v) /\
  (forall v, c <> new_ApplicationLoadBalancedFargateService v) /\
  (forall name,
      c = new_Repository name ->
      exists p e,
        tryGetContext ctx "project" = Str p /\
        tryGetContext ctx "environment" = Str e /\
        name = e ++ "-" ++ toLowerCase p ++ "-ecr-repository").
Proof.
  stack_cases ctx id props; intros H; split_calls H;
    (split; [intros; discriminate|]); (split; [intros; discriminate|]);
    intros name E; try discriminate E.
  injection E as <-. eauto.
Qed.

Lemma EcsStack_call_args (ctx : Context) (id : string) (props : option StackProps)
    (c : LibCall) :
  In c (calls (EcsStack ctx id props)) ->
  (forall v, c = Repository_fromRepositoryName v ->
             v = tryGetContext ctx "ecrRepoName") /\
  (forall v, c = new_ApplicationLoadBalancedFargateService v ->
             v = or_else (tryGetContext ctx "desiredCount") (Num 1)) /\
  (forall name, c <> new_Repository name).
Proof.
  stack_cases ctx id props; intros H; split_calls H;
    (split; [intros v E; try discriminate E; injection E as <-; reflexivity|]);
    (split; [intros v E; try discriminate E; injection E as <-; reflexivity|]);
    intros; discriminate.
Qed.

Lemma ObservabilityStack_call_args (ctx : Context) (id : string)
    (props : option StackProps) (c : LibCall) :
  In c (calls (ObservabilityStack ctx id props)) ->
  (forall v, c <> Repository_fromRepositoryName v) /\
  (forall v, c <> new_ApplicationLoadBalancedFargateService v) /\
  (forall name, c <> new_Repository name).
Proof.
  stack_cases ctx id props; intros H; split_calls H;
    repeat split; intros; discriminate.
Qed.

(** ** Validation: there is none *)

(** C1, as stated, fails: with the [ecrRepoName] override "badname" the
    code raises nothing, hands "badname" to the repository lookup and
    produces a record that carries it; a run at this input can fail only
    where the library throws. *)
Lemma badname_is_accepted :
  (exists app,
      result (main no_env {[ "ecrRepoName" := Str "badname" ]} svc_manifest)
        = Ok app /\
      run accept_all
        (main no_env {[ "ecrRepoName" := Str "badname" ]} svc_manifest)
        = Ok app /\
      ecs_ecrRepoName (app_ecs app) = Str "badname" /\
      In (Repository_fromRepositoryName (Str "badname"))
         (calls (main no_env {[ "ecrRepoName" := Str "badname" ]}
                   svc_manifest))) /\
  (forall lib err,
      run lib (main no_env {[ "ecrRepoName" := Str "badname" ]} svc_manifest)
        = Throw err ->
      exists returned c, lib returned c = Some err).
Proof.
  split.
  - eexists. split; [vm_compute; reflexivity|].
    split; [vm_compute; reflexivity|]. split; [reflexivity|].
    vm_compute. repeat (first [left; reflexivity | right]).
  - intros lib err H. apply run_Throw in H as [H | (returned & c & _ & H)].
    + vm_compute in H. discriminate H.
    + eauto.
Qed.

(** C1 (amended): the code validates nothing and raises no
    ConfigurationError.  An error of a run is either thrown by the library
    at one of the calls, or it is the TypeError of lower-casing a project or
    environment that is not a string.  The [ecrRepoName] override is what
    the repository lookup receives, separator or not, and what the record
    of every completed run carries. *)
Theorem resolution_never_raises_ConfigurationError
    (lib : Library) (env : ProcessEnv) (ctx0 : Context)
    (packageJson : PackageJson) :
  (forall err,
      run lib (main env ctx0 packageJson) = Throw err ->
      (name err = "TypeError" /\ ~ is_ConfigurationError err) \/
      (exists returned c,
          In c (calls (main env ctx0 packageJson)) /\
          lib returned c = Some err)) /\
  (forall app,
      run lib (main env ctx0 packageJson) = Ok app ->
      ecs_ecrRepoName (app_ecs app) = tryGetContext ctx0 "ecrRepoName") /\
  (forall v,
      In (Repository_fromRepositoryName v)
         (calls (main env ctx0 packageJson)) ->
      v = tryGetContext ctx0 "ecrRepoName").
Proof.
  split; [|split].
  - intros err H. apply run_Throw in H as [H | H]; [left | right; exact H].
    apply main_result_TypeError in H. split; [exact H|].
    unfold is_ConfigurationError. rewrite H. discriminate.
  - intros app H. invert_run H. reflexivity.
  - intros v H. apply main_calls in H as [H | [H | H]].
    + apply EcrStack_call_args in H as (H & _). now destruct (H v).
    + apply EcsStack_call_args in H as (H & _).
      rewrite (H v eq_refl). apply context_other; discriminate.
    + apply ObservabilityStack_call_args in H as (H & _). now destruct (H v).
Qed.

Lemma resolution_never_raises_ConfigurationError_witness :
  exists app,
    run accept_all
      (main no_env {[ "ecrRepoName" := Str "badname" ]} svc_manifest)
      = Ok app /\
    ecs_ecrRepoName (app_ecs app) = Str "badname".
Proof.
  assert (Hrun : exists app,
             run accept_all
               (main no_env {[ "ecrRepoName" := Str "badname" ]} svc_manifest)
             = Ok app).
  { eexists. vm_compute. reflexivity. }
  destruct Hrun as (app & Hrun). exists app. split; [exact Hrun|].
  apply (proj1 (proj2 (resolution_never_raises_ConfigurationError
                         accept_all no_env _ _)) app Hrun).
Defined.

(** ** Defaults *)

(** C2 at its own input: with no override and the manifest
    [{name: "svc", version: "1.0.0"}] the code raises nothing; the
    environment, image tag, monitored domain and instance count take their
    defaults, but the repository name handed to the lookup is [undefined],
    not "nginx/nginx".  Every completed run at this input yields that
    record. *)
Theorem defaults_leave_ecrRepoName_undefined (env : ProcessEnv) :
  exists app,
    result (main env ∅ svc_manifest) = Ok app /\
    environment (app_context app) = Str "dev" /\
    ecs_ecrImageTag (app_ecs app) = "latest" /\
    obs_monitorDomain (app_observability app) = Str "localhost" /\
    ecs_desiredCount (app_ecs app) = Num 1 /\
    ecs_ecrRepoName (app_ecs app) = Undefined /\
    ecs_ecrRepoName (app_ecs app) <> Str "nginx/nginx" /\
    In (Repository_fromRepositoryName Undefined)
       (calls (main env ∅ svc_manifest)) /\
    (forall lib app', run lib (main env ∅ svc_manifest) = Ok app' ->
                      app' = app).
Proof.
  eexists. split; [vm_compute; reflexivity|].
  repeat (split; [reflexivity|]).
  split; [discriminate|]. split.
  - vm_compute. repeat (first [left; reflexivity | right]).
  - intros lib app' H. apply run_Ok in H. vm_compute in H.
    injection H as <-. reflexivity.
Qed.

(** C3, as stated, fails: with an explicit [desiredCount] of 0 the count
    handed to the service, and carried by every completed run, is 1. *)
Lemma zero_desiredCount_resolves_to_one :
  exists app,
    result (main no_env {[ "desiredCount" := Num 0 ]} svc_manifest) = Ok app /\
    run accept_all (main no_env {[ "desiredCount" := Num 0 ]} svc_manifest)
      = Ok app /\
    ecs_desiredCount (app_ecs app) = Num 1 /\
    ecs_desiredCount (app_ecs app) <> Num 0 /\
    In (new_ApplicationLoadBalancedFargateService (Num 1))
       (calls (main no_env {[ "desiredCount" := Num 0 ]} svc_manifest)) /\
    (forall lib app',
        run lib (main no_env {[ "desiredCount" := Num 0 ]} svc_manifest)
          = Ok app' ->
        ecs_desiredCount (app_ecs app') = Num 1).
Proof.
  eexists. split; [vm_compute; reflexivity|].
  split; [vm_compute; reflexivity|]. split; [reflexivity|].
  split; [discriminate|]. split.
  - vm_compute. repeat (first [left; reflexivity | right]).
  - intros lib app' H. apply run_Ok in H. vm_compute in H.
    injection H as <-. reflexivity.
Qed.

(** C3 (amended): in every completed run the instance count is the
    [desiredCount] override when that override is truthy, and 1 otherwise.
    So an absent override and an override of 0 both give 1, and a positive
    integer is kept.  The same value is what the service receives. *)
Theorem desiredCount_resolution
    (lib : Library) (env : ProcessEnv) (ctx0 : Context)
    (packageJson : PackageJson) (app : AppSynth) :
  run lib (main env ctx0 packageJson) = Ok app ->
  ecs_desiredCount (app_ecs app) =
    (if truthy (tryGetContext ctx0 "desiredCount")
     then tryGetContext ctx0 "desiredCount" else Num 1) /\
  (ctx0 !! "desiredCount" = None ->
   ecs_desiredCount (app_ecs app) = Num 1) /\
  (ctx0 !! "desiredCount" = Some (Num 0) ->
   ecs_desiredCount (app_ecs app) = Num 1) /\
  (forall n, ctx0 !! "desiredCount" = Some (Num n) -> (0 < n)%Z ->
   ecs_desiredCount (app_ecs app) = Num n) /\
  (forall v,
      In (new_ApplicationLoadBalancedFargateService v)
         (calls (main env ctx0 packageJson)) ->
      v = ecs_desiredCount (app_ecs app)).
Proof.
  intros Hrun.
  assert (Hcalls : forall v,
             In (new_ApplicationLoadBalancedFargateService v)
                (calls (main env ctx0 packageJson)) ->
             v = or_else (tryGetContext ctx0 "desiredCount") (Num 1)).
  { intros v H. apply main_calls in H as [H | [H | H]].
    - apply EcrStack_call_args in H as (_ & H & _). now destruct (H v).
    - apply EcsStack_call_args in H as (_ & H & _).
      rewrite (H v eq_refl). f_equal. apply context_other; discriminate.
    - apply ObservabilityStack_call_args in H as (_ & H & _).
      now destruct (H v). }
  invert_run Hrun. cbn [app_ecs ecs_desiredCount].
  unfold or_else, tryGetContext in *. split; [reflexivity|].
  split; [|split; [|split]].
  - intros ->. reflexivity.
  - intros ->. reflexivity.
  - intros n -> Hn. simpl. destruct (Z.eqb_spec n 0); [lia | reflexivity].
  - exact Hcalls.
Qed.

Lemma desiredCount_resolution_witness :
  exists app,
    run accept_all (main no_env {[ "desiredCount" := Num 3 ]} svc_manifest)
      = Ok app /\
    ecs_desiredCount (app_ecs app) = Num 3.
Proof.
  assert (Hrun : exists app,
             run accept_all
               (main no_env {[ "desiredCount" := Num 3 ]} svc_manifest)
             = Ok app).
  { eexists. vm_compute. reflexivity. }
  destruct Hrun as (app & Hrun). exists app. split; [exact Hrun|].
  destruct (desiredCount_resolution _ _ _ _ app Hrun)
    as (_ & _ & _ & Hn & _).
  apply (Hn 3%Z); [reflexivity | lia].
Defined.

(** ** Derived names *)

Section Names.

Lemma template_lower (a b suffix : string) :
  toLowerCase (a ++ "-" ++ b ++ suffix) =
  toLowerCase a ++ "-" ++ toLowerCase b ++ toLowerCase suffix.
Proof.
  rewrite 3!toLowerCase_app. reflexivity.
Qed.

Lemma stack_ids_canonical (environment project : Value) :
  ecrStackId environment project =
    toLowerCase (to_string environment) ++ "-"
    ++ toLowerCase (to_string project) ++ "-ecr" /\
  ecsStackId environment project =
    toLowerCase (to_string environment) ++ "-"
    ++ toLowerCase (to_string project) ++ "-ecs" /\
  observabilityStackId environment project =
    toLowerCase (to_string environment) ++ "-"
    ++ toLowerCase (to_string project) ++ "-observability".
Proof.
  unfold ecrStackId, ecsStackId, observabilityStackId.
  rewrite !template_lower. repeat split.
Qed.

Lemma template_suffix (e p suffix : string) :
  toLowerCase (e ++ "-" ++ p ++ suffix)
  = toLowerCase (e ++ "-" ++ p) ++ toLowerCase suffix.
Proof.
  rewrite <- toLowerCase_app. f_equal. now rewrite !string_app_assoc.
Qed.

(** The only repository the program creates is the one of the ECR stack,
    named by the environment as typed and the lower-cased project. *)
Lemma main_new_Repository (env : ProcessEnv) (ctx0 : Context)
    (packageJson : PackageJson) (name : string) :
  In (new_Repository name) (calls (main env ctx0 packageJson)) ->
  exists p e,
    project (resolveContext ctx0 packageJson) = Str p /\
    environment (resolveContext ctx0 packageJson) = Str e /\
    name = e ++ "-" ++ toLowerCase p ++ "-ecr-repository".
Proof.
  intros H. apply main_calls in H as [H | [H | H]].
  - apply EcrStack_call_args in H as (_ & _ & H).
    destruct (H name eq_refl) as (p & e & Hp & He & ->).
    rewrite context_project in Hp. rewrite context_environment in He.
    eauto.
  - apply EcsStack_call_args in H as (_ & _ & H). now destruct (H name).
  - apply ObservabilityStack_call_args in H as (_ & _ & H).
    now destruct (H name).
Qed.

End Names.

(** C4 at a failing input: environment "Prod", project "Shop".  The ids of
    the three stacks and the container name are lower-cased throughout, but
    the name the ECR stack hands to [ecr.Repository] is
    "Prod-shop-ecr-repository": the environment keeps its case there, so the
    name is not
    lowercase(environment) + "-" + lowercase(project) + "-ecr-repository". *)
Theorem repositoryName_keeps_environment_case (env : ProcessEnv) :
  let program :=
    main env {[ "environment" := Str "Prod" ]}
         (mkPackageJson (Str "Shop") (Str "1.0.0")) in
  ecrStackId (Str "Prod") (Str "Shop") = "prod-shop-ecr" /\
  ecsStackId (Str "Prod") (Str "Shop") = "prod-shop-ecs" /\
  observabilityStackId (Str "Prod") (Str "Shop") = "prod-shop-observability" /\
  In (Stack_super "prod-shop-ecr" (Some (ecrProps env (Str "Shop"))))
     (calls program) /\
  In (new_ContainerDefinition "prod-shop-container") (calls program) /\
  In (new_Repository "Prod-shop-ecr-repository") (calls program) /\
  (forall name, In (new_Repository name) (calls program) ->
                name = "Prod-shop-ecr-repository") /\
  "Prod-shop-ecr-repository" <>
    toLowerCase "Prod" ++ "-" ++ toLowerCase "Shop" ++ "-ecr-repository".
Proof.
  intros program. repeat (split; [reflexivity|]).
  split; [vm_compute; repeat (first [left; reflexivity | right])|].
  split; [vm_compute; repeat (first [left; reflexivity | right])|].
  split; [vm_compute; repeat (first [left; reflexivity | right])|].
  split; [|vm_compute; discriminate].
  intros name H. apply main_new_Repository in H as (p & e & Hp & He & ->).
  vm_compute in Hp, He. injection Hp as <-. injection He as <-.
  reflexivity.
Qed.

(** ** Tags *)

(** C5: for every project and environment given as strings, the registry,
    service and observability constructors add the same tags, in the same
    order, and the record of every completed construction carries them;
    for ASCII inputs they are exactly project = lowercase(project),
    environment = lowercase(environment). *)
Theorem tags_uniform (ctx : Context) (id1 id2 id3 : string)
    (props1 props2 props3 : option StackProps) (p e : string) :
  tryGetContext ctx "project" = Str p ->
  tryGetContext ctx "environment" = Str e ->
  tag_calls (calls (EcsStack ctx id2 props2))
    = tag_calls (calls (EcrStack ctx id1 props1)) /\
  tag_calls (calls (ObservabilityStack ctx id3 props3))
    = tag_calls (calls (EcrStack ctx id1 props1)) /\
  (forall lib ecr, run lib (EcrStack ctx id1 props1) = Ok ecr ->
                   ecr_tags ecr = tag_calls (calls (EcrStack ctx id1 props1))) /\
  (forall lib ecs, run lib (EcsStack ctx id2 props2) = Ok ecs ->
                   ecs_tags ecs = tag_calls (calls (EcrStack ctx id1 props1))) /\
  (forall lib obs, run lib (ObservabilityStack ctx id3 props3) = Ok obs ->
                   obs_tags obs = tag_calls (calls (EcrStack ctx id1 props1))) /\
  (ascii_only p = true -> ascii_only e = true ->
   tag_calls (calls (EcrStack ctx id1 props1))
   = [("project", toLowerCase p); ("environment", toLowerCase e)]).
Proof.
  intros Hp He.
  rewrite (EcrStack_ok _ _ _ Hp He), (EcsStack_ok _ _ _ Hp He),
    (ObservabilityStack_ok _ _ _ Hp He).
  split; [reflexivity|]. split; [reflexivity|].
  split; [|split; [|split]].
  - intros lib s H. apply run_Ok in H. injection H as <-. reflexivity.
  - intros lib s H. apply run_Ok in H. injection H as <-. reflexivity.
  - intros lib s H. apply run_Ok in H. injection H as <-. reflexivity.
  - intros _ _. reflexivity.
Qed.

Lemma tags_uniform_witness :
  tag_calls
    (calls (EcrStack {[ "project" := Str "Shop"; "environment" := Str "prod" ]}
              "prod-shop-ecr" None))
  = [("project", "shop"); ("environment", "prod")].
Proof.
  apply (tags_uniform
           {[ "project" := Str "Shop"; "environment" := Str "prod" ]}
           "prod-shop-ecr" "prod-shop-ecs" "prod-shop-observability"
           None None None "Shop" "prod");
    reflexivity.
Defined.

(** C6: for ASCII inputs, the resource group of the observability stack
    filters on the project and environment as typed, while the tag the
    stack applies is the lower-cased value; the filter value and the applied
    tag value coincide exactly when the input has no upper-case letter.
    This holds of the calls the constructor makes and of the record of
    every completed construction. *)
Theorem query_matches_tag_iff_lowercase
    (ctx : Context) (id : string) (props : option StackProps)
    (p e : string) :
  tryGetContext ctx "project" = Str p ->
  tryGetContext ctx "environment" = Str e ->
  ascii_only p = true -> ascii_only e = true ->
  let script := ObservabilityStack ctx id props in
  let filters := [("project", [p]); ("environment", [e])] in
  In (new_CfnGroup (toLowerCase (e ++ "-" ++ p)) filters) (calls script) /\
  (forall name fs, In (new_CfnGroup name fs) (calls script) -> fs = filters) /\
  tag_value "project" (tag_calls (calls script)) = Some (toLowerCase p) /\
  tag_value "environment" (tag_calls (calls script))
    = Some (toLowerCase e) /\
  (filter_values "project" filters
     = (fun v => [v]) <$> tag_value "project" (tag_calls (calls script))
   <-> all_lowercase p = true) /\
  (filter_values "environment" filters
     = (fun v => [v]) <$> tag_value "environment" (tag_calls (calls script))
   <-> all_lowercase e = true) /\
  (forall lib obs,
      run lib script = Ok obs ->
      obs_tagFilters obs = filters /\
      obs_tags obs = tag_calls (calls script)).
Proof.
  intros Hp He _ _ script filters. subst script filters.
  rewrite (ObservabilityStack_ok _ _ _ Hp He).
  split; [simpl; auto 10|].
  split.
  { intros name fs H. simpl in H.
    repeat (destruct H as [H | H];
            [try discriminate H; injection H as _ <-; reflexivity|]).
    contradiction. }
  split; [reflexivity|]. split; [reflexivity|].
  split; [|split].
  - simpl. rewrite <- toLowerCase_fixed. split; intros H.
    + injection H as H. congruence.
    + now rewrite H.
  - simpl. rewrite <- toLowerCase_fixed. split; intros H.
    + injection H as H. congruence.
    + now rewrite H.
  - intros lib obs H. apply run_Ok in H. injection H as <-.
    split; reflexivity.
Qed.

Lemma query_matches_tag_iff_lowercase_witness :
  filter_values "project" [("project", ["Shop"]); ("environment", ["prod"])]
    = (fun v => [v]) <$>
      tag_value "project"
        (tag_calls
           (calls (ObservabilityStack
                     {[ "project" := Str "Shop"; "environment" := Str "prod" ]}
                     "prod-shop-observability" None)))
  <-> all_lowercase "Shop" = true.
Proof.
  apply (query_matches_tag_iff_lowercase
           {[ "project" := Str "Shop"; "environment" := Str "prod" ]}
           "prod-shop-observability" None "Shop" "prod");
    reflexivity.
Defined.
(** ** Precedence *)

(** C7: the project is the ["project"] override, verbatim, when that
    override is a non-empty string, and the manifest's name when the override
    is absent or empty; the stack ids carry the lower-cased project.  With no
    override and the manifest [{name: "MyApp", version: "2.3.0"}] the project
    is "MyApp" and the stack ids use "myapp". *)
Theorem project_precedence (ctx0 : Context) (packageJson : PackageJson) :
  let r := resolveContext ctx0 packageJson in
  let env := toLowerCase (to_string (environment r)) in
  (forall s,
      ctx0 !! "project" = Some (Str s) -> s <> "" ->
      project r = Str s /\
      tryGetContext (context r) "project" = Str s /\
      ecrStackId (environment r) (project r)
        = env ++ "-" ++ toLowerCase s ++ "-ecr" /\
      ecsStackId (environment r) (project r)
        = env ++ "-" ++ toLowerCase s ++ "-ecs" /\
      observabilityStackId (environment r) (project r)
        = env ++ "-" ++ toLowerCase s ++ "-observability") /\
  (ctx0 !! "project" = None \/ ctx0 !! "project" = Some (Str "") ->
   project r = pkg_name packageJson /\
   tryGetContext (context r) "project" = pkg_name packageJson) /\
  (ctx0 !! "project" = None ->
   packageJson = mkPackageJson (Str "MyApp") (Str "2.3.0") ->
   project r = Str "MyApp" /\
   ecrStackId (environment r) (project r) = env ++ "-myapp-ecr" /\
   ecsStackId (environment r) (project r) = env ++ "-myapp-ecs" /\
   observabilityStackId (environment r) (project r)
     = env ++ "-myapp-observability").
Proof.
  intros r env.
  pose proof (stack_ids_canonical (environment r) (project r))
    as (Hecr & Hecs & Hobs).
  assert (Hctx := context_project ctx0 packageJson). fold r in Hctx.
  assert (Hr := resolve_project_eq ctx0 packageJson). fold r in Hr.
  unfold tryGetContext in Hr at 1 2.
  subst env. clearbody r.
  split; [|split].
  - intros s Hs Hne. rewrite Hs in Hr. simpl in Hr.
    destruct (String.eqb_spec s ""); [contradiction|]. simpl in Hr.
    rewrite Hctx, Hecr, Hecs, Hobs, Hr. repeat split.
  - intros [H | H]; rewrite H in Hr; simpl in Hr; rewrite Hctx, Hr;
      split; reflexivity.
  - intros H ->. rewrite H in Hr. simpl in Hr.
    rewrite Hecr, Hecs, Hobs, Hr. repeat split.
Qed.

Lemma project_precedence_witness :
  project (resolveContext ∅ (mkPackageJson (Str "MyApp") (Str "2.3.0")))
    = Str "MyApp" /\
  ecrStackId
    (environment (resolveContext ∅ (mkPackageJson (Str "MyApp") (Str "2.3.0"))))
    (project (resolveContext ∅ (mkPackageJson (Str "MyApp") (Str "2.3.0"))))
    = "dev-myapp-ecr" /\
  project
    (resolveContext {[ "project" := Str "Shop" ]} svc_manifest) = Str "Shop".
Proof.
  destruct (project_precedence ∅ (mkPackageJson (Str "MyApp") (Str "2.3.0")))
    as (_ & _ & Hmanifest).
  destruct (Hmanifest eq_refl eq_refl) as (Hproject & Hecr & _).
  destruct (project_precedence {[ "project" := Str "Shop" ]} svc_manifest)
    as (Hoverride & _).
  destruct (Hoverride "Shop") as (Hshop & _); [reflexivity | discriminate |].
  split; [exact Hproject|]. split; [exact Hecr | exact Hshop].
Defined.

(** ** Determinism *)

Lemma AppContext_ext (a b : AppContext) :
  project a = project b -> version a = version b ->
  environment a = environment b -> context a = context b -> a = b.
Proof. destruct a, b; simpl; intros; subst; reflexivity. Qed.

Lemma or_default_stable (c d : Value) :
  (if truthy (if truthy c then c else d)
   then (if truthy c then c else d) else d)
  = (if truthy c then c else d).
Proof.
  destruct (truthy c) eqn:Hc; [rewrite Hc; reflexivity|].
  destruct (truthy d); reflexivity.
Qed.

(** Resolving again over the context the entry point left behind changes
    nothing: the same project, version and environment, and the same
    context. *)
Lemma resolveContext_idempotent (ctx0 : Context) (packageJson : PackageJson) :
  resolveContext (context (resolveContext ctx0 packageJson)) packageJson
  = resolveContext ctx0 packageJson.
Proof.
  pose proof (resolve_project_eq
                (context (resolveContext ctx0 packageJson)) packageJson) as Hp.
  pose proof (resolve_version_eq
                (context (resolveContext ctx0 packageJson)) packageJson) as Hv.
  pose proof (resolve_environment_eq
                (context (resolveContext ctx0 packageJson)) packageJson) as He.
  rewrite context_project, (resolve_project_eq ctx0 packageJson),
    or_default_stable, <- (resolve_project_eq ctx0 packageJson) in Hp.
  rewrite context_version, (resolve_version_eq ctx0 packageJson),
    or_default_stable, <- (resolve_version_eq ctx0 packageJson) in Hv.
  rewrite context_environment, (resolve_environment_eq ctx0 packageJson),
    or_default_stable, <- (resolve_environment_eq ctx0 packageJson) in He.
  assert (Hc : context
                 (resolveContext (context (resolveContext ctx0 packageJson))
                    packageJson)
               = context (resolveContext ctx0 packageJson)).
  { change (context
              (resolveContext (context (resolveContext ctx0 packageJson))
                 packageJson))
      with
      (setContext "environment"
         (environment
            (resolveContext (context (resolveContext ctx0 packageJson))
               packageJson))
         (setContext "version"
            (version
               (resolveContext (context (resolveContext ctx0 packageJson))
                  packageJson))
            (setContext "project"
               (project
                  (resolveContext (context (resolveContext ctx0 packageJson))
                     packageJson))
               (context (resolveContext ctx0 packageJson))))).
    rewrite Hp, Hv, He. unfold setContext.
    apply map_eq. intros k.
    pose proof (context_project ctx0 packageJson) as Cp.
    pose proof (context_version ctx0 packageJson) as Cv.
    pose proof (context_environment ctx0 packageJson) as Ce.
    unfold tryGetContext in Cp, Cv, Ce.
    assert (Hin : forall key, key = "project" \/ key = "version"
                              \/ key = "environment" ->
                  is_Some (context (resolveContext ctx0 packageJson) !! key)).
    { intros key [-> | [-> | ->]]; unfold resolveContext, setContext; simpl.
      - rewrite !lookup_insert_ne by discriminate. rewrite lookup_insert_eq.
        eauto.
      - rewrite lookup_insert_ne by discriminate. rewrite lookup_insert_eq.
        eauto.
      - rewrite lookup_insert_eq. eauto. }
    destruct (decide (k = "environment")) as [->|Hke].
    { rewrite lookup_insert_eq.
      destruct (Hin "environment") as [v Hv']; [auto|].
      rewrite Hv' in Ce |- *. f_equal. symmetry. exact Ce. }
    rewrite lookup_insert_ne by congruence.
    destruct (decide (k = "version")) as [->|Hkv].
    { rewrite lookup_insert_eq.
      destruct (Hin "version") as [v Hv']; [auto|].
      rewrite Hv' in Cv |- *. f_equal. symmetry. exact Cv. }
    rewrite lookup_insert_ne by congruence.
    destruct (decide (k = "project")) as [->|Hkp].
    { rewrite lookup_insert_eq.
      destruct (Hin "project") as [v Hv']; [auto|].
      rewrite Hv' in Cp |- *. f_equal. symmetry. exact Cp. }
    rewrite lookup_insert_ne by congruence. reflexivity. }
  apply AppContext_ext; assumption.
Qed.

(** ** What the stacks read *)

Section Reads.

Variables c1 c2 : Context.

Lemma EcrStack_reads (id : string) (props : option StackProps) :
  tryGetContext c1 "project" = tryGetContext c2 "project" ->
  tryGetContext c1 "environment" = tryGetContext c2 "environment" ->
  EcrStack c1 id props = EcrStack c2 id props.
Proof. unfold EcrStack. intros -> ->. reflexivity. Qed.

Lemma EcsStack_reads (id : string) (props : option StackProps) :
  tryGetContext c1 "project" = tryGetContext c2 "project" ->
  tryGetContext c1 "environment" = tryGetContext c2 "environment" ->
  tryGetContext c1 "desiredCount" = tryGetContext c2 "desiredCount" ->
  tryGetContext c1 "ecrRepoName" = tryGetContext c2 "ecrRepoName" ->
  tryGetContext c1 "ecrImageTag" = tryGetContext c2 "ecrImageTag" ->
  EcsStack c1 id props = EcsStack c2 id props.
Proof. unfold EcsStack. intros -> -> -> -> ->. reflexivity. Qed.

Lemma ObservabilityStack_reads (id : string) (props : option StackProps) :
  tryGetContext c1 "project" = tryGetContext c2 "project" ->
  tryGetContext c1 "environment" = tryGetContext c2 "environment" ->
  tryGetContext c1 "domainName" = tryGetContext c2 "domainName" ->
  ObservabilityStack c1 id props = ObservabilityStack c2 id props.
Proof. unfold ObservabilityStack. intros -> -> ->. reflexivity. Qed.

End Reads.

(** Runs whose contexts agree on the keys the stacks read, with the same
    manifest name and process environment, make the same calls and build
    the same stacks. *)
Lemma main_agree (env : ProcessEnv) (ctx1 ctx2 : Context)
    (pkg1 pkg2 : PackageJson) :
  (forall key, In key stack_keys ->
               tryGetContext ctx1 key = tryGetContext ctx2 key) ->
  pkg_name pkg1 = pkg_name pkg2 ->
  calls (main env ctx1 pkg1) = calls (main env ctx2 pkg2) /\
  stacks_of (result (main env ctx1 pkg1))
    = stacks_of (result (main env ctx2 pkg2)).
Proof.
  intros Hkeys Hname.
  assert (Hp : tryGetContext ctx1 "project" = tryGetContext ctx2 "project")
    by (apply Hkeys; simpl; auto).
  assert (He : tryGetContext ctx1 "environment"
               = tryGetContext ctx2 "environment")
    by (apply Hkeys; simpl; auto).
  assert (Hrp : project (resolveContext ctx1 pkg1)
                = project (resolveContext ctx2 pkg2))
    by (rewrite !resolve_project_eq, Hp, Hname; reflexivity).
  assert (Hre : environment (resolveContext ctx1 pkg1)
                = environment (resolveContext ctx2 pkg2))
    by (rewrite !resolve_environment_eq, He; reflexivity).
  assert (Hother : forall key,
             In key stack_keys -> key <> "project" -> key <> "environment" ->
             tryGetContext (context (resolveContext ctx1 pkg1)) key
             = tryGetContext (context (resolveContext ctx2 pkg2)) key).
  { intros key Hin Hkp Hke.
    assert (key <> "version")
      by (simpl in Hin; intros ->;
          repeat (destruct Hin as [Hin | Hin]; [discriminate Hin|]);
          contradiction).
    rewrite !context_other by assumption. now apply Hkeys. }
  unfold main. cbv zeta. rewrite Hrp, Hre.
  rewrite (EcrStack_reads (context (resolveContext ctx1 pkg1))
             (context (resolveContext ctx2 pkg2)));
    [| rewrite !context_project; exact Hrp
     | rewrite !context_environment; exact Hre].
  rewrite (EcsStack_reads (context (resolveContext ctx1 pkg1))
             (context (resolveContext ctx2 pkg2)));
    [| rewrite !context_project; exact Hrp
     | rewrite !context_environment; exact Hre
     | apply Hother; [simpl; auto 10 | discriminate | discriminate] ..].
  rewrite (ObservabilityStack_reads (context (resolveContext ctx1 pkg1))
             (context (resolveContext ctx2 pkg2)));
    [| rewrite !context_project; exact Hrp
     | rewrite !context_environment; exact Hre
     | apply Hother; [simpl; auto 10 | discriminate | discriminate]].
  generalize (EcrStack (context (resolveContext ctx2 pkg2))
                (ecrStackId (environment (resolveContext ctx2 pkg2))
                   (project (resolveContext ctx2 pkg2)))
                (Some (ecrProps env (project (resolveContext ctx2 pkg2))))).
  generalize (EcsStack (context (resolveContext ctx2 pkg2))
                (ecsStackId (environment (resolveContext ctx2 pkg2))
                   (project (resolveContext ctx2 pkg2)))
                (Some (ecsProps env (project (resolveContext ctx2 pkg2))))).
  generalize (ObservabilityStack (context (resolveContext ctx2 pkg2))
                (observabilityStackId
                   (environment (resolveContext ctx2 pkg2))
                   (project (resolveContext ctx2 pkg2)))
                (Some (observabilityProps env
                         (project (resolveContext ctx2 pkg2))))).
  intros obs ecs ecr.
  unfold mbind, Script_bind, script_bind. cbv zeta.
  destruct (result ecr); [|split; reflexivity].
  destruct (result ecs); [|split; reflexivity].
  destruct (result obs); split; reflexivity.
Qed.

Lemma run_agree (lib : Library) (s1 s2 : Script AppSynth) :
  calls s1 = calls s2 ->
  stacks_of (result s1) = stacks_of (result s2) ->
  stacks_of (run lib s1) = stacks_of (run lib s2).
Proof.
  intros Hc Hr. unfold run. rewrite Hc.
  destruct (first_throw lib [] (calls s2)); [reflexivity | exact Hr].
Qed.

(** C8: two runs whose overrides agree on the seven keys the program reads,
    with the same manifest, resolve the same project, version and
    environment, make the same library calls with the same arguments, and,
    against the same library, build the same three stacks or fail alike;
    nothing else in the context matters.  When the environment is "prod"
    and the project "Shop", the stack ids of both are "prod-shop-ecr",
    "prod-shop-ecs" and "prod-shop-observability", and every completed run
    of either tags each stack with project = "shop", environment =
    "prod". *)
Theorem resolution_deterministic
    (ctx1 ctx2 : Context) (pkg1 pkg2 : PackageJson) :
  (forall key, In key (resolved_keys ++ stack_keys)%list ->
               tryGetContext ctx1 key = tryGetContext ctx2 key) ->
  pkg1 = pkg2 ->
  let r1 := resolveContext ctx1 pkg1 in
  let r2 := resolveContext ctx2 pkg2 in
  (project r1 = project r2 /\ version r1 = version r2 /\
   environment r1 = environment r2) /\
  (forall env,
      calls (main env ctx1 pkg1) = calls (main env ctx2 pkg2) /\
      forall lib,
        stacks_of (run lib (main env ctx1 pkg1))
        = stacks_of (run lib (main env ctx2 pkg2))) /\
  (tryGetContext ctx1 "environment" = Str "prod" ->
   tryGetContext ctx1 "project" = Str "Shop" ->
   (ecrStackId (environment r1) (project r1) = "prod-shop-" ++ "ecr" /\
    ecsStackId (environment r1) (project r1) = "prod-shop-" ++ "ecs" /\
    observabilityStackId (environment r1) (project r1)
      = "prod-shop-" ++ "observability") /\
   (ecrStackId (environment r2) (project r2) = "prod-shop-" ++ "ecr" /\
    ecsStackId (environment r2) (project r2) = "prod-shop-" ++ "ecs" /\
    observabilityStackId (environment r2) (project r2)
      = "prod-shop-" ++ "observability") /\
   forall lib env app,
     run lib (main env ctx1 pkg1) = Ok app \/
     run lib (main env ctx2 pkg2) = Ok app ->
     ecr_tags (app_ecr app) = [("project", "shop"); ("environment", "prod")] /\
     ecs_tags (app_ecs app) = [("project", "shop"); ("environment", "prod")] /\
     obs_tags (app_observability app)
       = [("project", "shop"); ("environment", "prod")] /\
     ecr_id (app_ecr app) = "prod-shop-" ++ "ecr" /\
     ecs_id (app_ecs app) = "prod-shop-" ++ "ecs" /\
     obs_id (app_observability app) = "prod-shop-" ++ "observability").
Proof.
  intros Hkeys <- r1 r2.
  assert (Hp : tryGetContext ctx1 "project" = tryGetContext ctx2 "project")
    by (apply Hkeys; simpl; auto).
  assert (Hv : tryGetContext ctx1 "version" = tryGetContext ctx2 "version")
    by (apply Hkeys; simpl; auto).
  assert (He : tryGetContext ctx1 "environment"
               = tryGetContext ctx2 "environment")
    by (apply Hkeys; simpl; auto).
  assert (Hrp : project r1 = project r2)
    by (unfold r1, r2; rewrite !resolve_project_eq, Hp; reflexivity).
  assert (Hrv : version r1 = version r2)
    by (unfold r1, r2; rewrite !resolve_version_eq, Hv; reflexivity).
  assert (Hre : environment r1 = environment r2)
    by (unfold r1, r2; rewrite !resolve_environment_eq, He; reflexivity).
  split; [auto|]. split.
  - intros env.
    destruct (main_agree env ctx1 ctx2 pkg1 pkg1) as (Hcalls & Hstacks);
      [intros key Hin; apply Hkeys; simpl in *; tauto | reflexivity |].
    split; [exact Hcalls|]. intros lib. now apply run_agree.
  - intros Eprod Eshop.
    assert (Hr1p : project r1 = Str "Shop")
      by (unfold r1; rewrite resolve_project_eq, Eshop; reflexivity).
    assert (Hr1e : environment r1 = Str "prod")
      by (unfold r1; rewrite resolve_environment_eq, Eprod; reflexivity).
    rewrite <- Hrp, <- Hre, Hr1p, Hr1e.
    split; [repeat split|]. split; [repeat split|].
    intros lib env app [H | H]; apply run_Ok in H;
      rewrite main_result in H.
    + fold r1 in H. rewrite Hr1p, Hr1e in H. injection H as <-.
      repeat split.
    + fold r2 in H. rewrite <- Hrp, <- Hre, Hr1p, Hr1e in H.
      injection H as <-. repeat split.
Qed.

Lemma resolution_deterministic_witness :
  calls (main no_env
           {[ "environment" := Str "prod"; "project" := Str "Shop";
              "owner" := Str "ops" ]} svc_manifest)
  = calls (main no_env
             {[ "project" := Str "Shop"; "environment" := Str "prod" ]}
             svc_manifest).
Proof.
  assert (Hsame : forall key : string,
             In key (resolved_keys ++ stack_keys)%list ->
             tryGetContext
               ({[ "environment" := Str "prod"; "project" := Str "Shop";
                   "owner" := Str "ops" ]} : Context) key
             = tryGetContext
                 ({[ "project" := Str "Shop"; "environment" := Str "prod" ]}
                    : Context) key).
  { intros key Hkey. simpl in Hkey.
    repeat (destruct Hkey as [<- | Hkey]; [reflexivity|]). contradiction. }
  destruct (resolution_deterministic _ _ svc_manifest svc_manifest
              Hsame eq_refl) as (_ & Hcalls & _).
  apply (Hcalls no_env).
Defined.

(** ** Distinct stack ids *)

(** C9: whatever the environment and the project are, the ids of the
    registry, service and observability stacks are three different strings. *)
Theorem stack_ids_distinct (environment project : Value) :
  ecrStackId environment project <> ecsStackId environment project /\
  ecrStackId environment project
    <> observabilityStackId environment project /\
  ecsStackId environment project
    <> observabilityStackId environment project.
Proof.
  destruct (stack_ids_canonical environment project) as (-> & -> & ->).
  repeat split; intros H;
    apply string_app_inv_head in H;
    change ("-" ++ ?a) with (String "-" a) in H;
    injection H as H;
    apply string_app_inv_head in H; discriminate.
Qed.

(** ** A stack built on its own *)






(** ** When the program completes *)

(** A run of the program completes only if the project and the environment
    both resolve to strings; the record then carries the resolved
    context. *)
Theorem main_completes_only_on_strings
    (lib : Library) (env : ProcessEnv) (ctx0 : Context)
    (packageJson : PackageJson) (app : AppSynth) :
  run lib (main env ctx0 packageJson) = Ok app ->
  exists p e,
    project (resolveContext ctx0 packageJson) = Str p /\
    environment (resolveContext ctx0 packageJson) = Str e /\
    app_context app = resolveContext ctx0 packageJson.
Proof.
  intros H. apply run_Ok in H. rewrite main_result in H.
  destruct (project (resolveContext ctx0 packageJson)) as [|p|n];
    [discriminate H | | discriminate H].
  destruct (environment (resolveContext ctx0 packageJson)) as [|e|n];
    [discriminate H | | discriminate H].
  injection H as <-. eauto.
Qed.

Lemma main_completes_only_on_strings_witness :
  exists p e,
    project (resolveContext {[ "environment" := Str "prod" ]} svc_manifest)
      = Str p /\
    environment (resolveContext {[ "environment" := Str "prod" ]} svc_manifest)
      = Str e.
Proof.
  assert (Hrun : exists app,
             run accept_all
               (main no_env {[ "environment" := Str "prod" ]} svc_manifest)
             = Ok app).
  { eexists. vm_compute. reflexivity. }
  destruct Hrun as (app & Hrun).
  destruct (main_completes_only_on_strings _ _ _ _ app Hrun)
    as (p & e & Hp & He & _).
  exists p, e. split; assumption.
Defined.



(** ** Shape of the derived names *)

(** Whenever the program completes, the stack ids, the container name, the
    resource group name, the export name, the log stream prefix, the monitor
    name and both tag values contain no upper-case letter. *)
Theorem derived_names_lowercase
    (lib : Library) (env : ProcessEnv) (ctx0 : Context)
    (packageJson : PackageJson) (app : AppSynth) :
  run lib (main env ctx0 packageJson) = Ok app ->
  all_lowercase (ecr_id (app_ecr app)) = true /\
  all_lowercase (ecs_id (app_ecs app)) = true /\
  all_lowercase (obs_id (app_observability app)) = true /\
  all_lowercase (ecs_containerName (app_ecs app)) = true /\
  all_lowercase (obs_groupName (app_observability app)) = true /\
  all_lowercase (obs_exportName (app_observability app)) = true /\
  all_lowercase (ecs_streamPrefix (app_ecs app)) = true /\
  all_lowercase (obs_monitorName (app_observability app)) = true /\
  (forall key value,
      In (key, value)
         (ecr_tags (app_ecr app) ++ ecs_tags (app_ecs app)
          ++ obs_tags (app_observability app))%list ->
      all_lowercase value = true).
Proof.
  intros H. invert_run H. simpl.
  repeat (split; [apply toLowerCase_all_lowercase|]).
  intros key value Hin.
  repeat (destruct Hin as [Hin | Hin];
          [injection Hin as _ <-; apply toLowerCase_all_lowercase|]).
  contradiction.
Qed.

Lemma derived_names_lowercase_witness :
  exists app,
    run accept_all
      (main no_env {[ "environment" := Str "prod" ]}
         (mkPackageJson (Str "Shop") (Str "1.0.0"))) = Ok app /\
    all_lowercase (ecr_id (app_ecr app)) = true /\
    all_lowercase (ecs_containerName (app_ecs app)) = true.
Proof.
  assert (Hrun : exists app,
             run accept_all
               (main no_env {[ "environment" := Str "prod" ]}
                  (mkPackageJson (Str "Shop") (Str "1.0.0"))) = Ok app).
  { eexists. vm_compute. reflexivity. }
  destruct Hrun as (app & Hmain). exists app. split; [exact Hmain|].
  destruct (derived_names_lowercase _ _ _ _ app Hmain)
    as (Hecr & _ & _ & Hcontainer & _).
  split; assumption.
Defined.

(** The name the program hands to [ecr.Repository] is free of upper-case
    letters exactly when the resolved environment is: only the project part
    of it is lower-cased. *)
Theorem repositoryName_lowercase_iff
    (env : ProcessEnv) (ctx0 : Context) (packageJson : PackageJson)
    (name : string) :
  In (new_Repository name) (calls (main env ctx0 packageJson)) ->
  (all_lowercase name = true <->
   all_lowercase
     (to_string (environment (resolveContext ctx0 packageJson))) = true).
Proof.
  intros H. apply main_new_Repository in H as (p & e & Hp & He & ->).
  rewrite He. cbn [to_string].
  rewrite !all_lowercase_app, toLowerCase_all_lowercase.
  change (all_lowercase "-") with true.
  change (all_lowercase "-ecr-repository") with true.
  rewrite !andb_true_r. reflexivity.
Qed.

Lemma repositoryName_lowercase_iff_witness :
  all_lowercase "Prod-svc-ecr-repository" = true <->
  all_lowercase
    (to_string
       (environment
          (resolveContext {[ "environment" := Str "Prod" ]} svc_manifest)))
  = true.
Proof.
  apply (repositoryName_lowercase_iff no_env
           {[ "environment" := Str "Prod" ]} svc_manifest).
  vm_compute. repeat (first [left; reflexivity | right]).
Defined.

(** Whenever the program completes, the resource group's name is the prefix
    shared by the three stack ids, the container name and the export name,
    and it is the value of the stack's output. *)
Theorem names_share_group_prefix
    (lib : Library) (env : ProcessEnv) (ctx0 : Context)
    (packageJson : PackageJson) (app : AppSynth) :
  run lib (main env ctx0 packageJson) = Ok app ->
  let group := obs_groupName (app_observability app) in
  ecr_id (app_ecr app) = group ++ "-ecr" /\
  ecs_id (app_ecs app) = group ++ "-ecs" /\
  obs_id (app_observability app) = group ++ "-observability" /\
  ecs_containerName (app_ecs app) = group ++ "-container" /\
  obs_exportName (app_observability app) = group ++ "-resource-group" /\
  obs_outputValue (app_observability app) = group.
Proof.
  intros H. invert_run H. simpl.
  rewrite !template_suffix. repeat split.
Qed.

Lemma names_share_group_prefix_witness :
  exists app,
    run accept_all
      (main no_env {[ "environment" := Str "prod" ]} svc_manifest) = Ok app /\
    ecr_id (app_ecr app) = obs_groupName (app_observability app) ++ "-ecr".
Proof.
  assert (Hrun : exists app,
             run accept_all
               (main no_env {[ "environment" := Str "prod" ]} svc_manifest)
             = Ok app).
  { eexists. vm_compute. reflexivity. }
  destruct Hrun as (app & Hmain). exists app. split; [exact Hmain|].
  apply (names_share_group_prefix _ _ _ _ app Hmain).
Defined.

(** ** Each stack on its own *)

Section StandaloneStacks.

Variable lib : Library.
Variable ctx : Context.

Lemma EcsStack_inv (id : string) (props : option StackProps)
    (s : EcsSynth) :
  run lib (EcsStack ctx id props) = Ok s ->
  exists p e,
    tryGetContext ctx "project" = Str p /\
    tryGetContext ctx "environment" = Str e /\
    result (EcsStack ctx id props) = Ok s.
Proof.
  intros H. apply run_Ok in H.
  destruct (throw_or_strings ctx) as [(err & _ & Hall) | (p & e & Hp & He)].
  - destruct (Hall id props) as (_ & Hecs & _). rewrite Hecs in H.
    discriminate.
  - eauto.
Qed.

Lemma ObservabilityStack_inv (id : string) (props : option StackProps)
    (o : ObservabilitySynth) :
  run lib (ObservabilityStack ctx id props) = Ok o ->
  exists p e,
    tryGetContext ctx "project" = Str p /\
    tryGetContext ctx "environment" = Str e /\
    result (ObservabilityStack ctx id props) = Ok o.
Proof.
  intros H. apply run_Ok in H.
  destruct (throw_or_strings ctx) as [(err & _ & Hall) | (p & e & Hp & He)].
  - destruct (Hall id props) as (_ & _ & Hobs). rewrite Hobs in H.
    discriminate.
  - eauto.
Qed.

End StandaloneStacks.

(** Whenever the ECS stack completes, the image tag handed to the container
    image is "latest" when the ["ecrImageTag"] entry is absent, empty or 0,
    the entry itself when it is a non-empty string, and its decimal
    rendering when it is a non-zero integer of magnitude up to 2^53; the
    repository name is the ["ecrRepoName"] entry as it is. *)
Theorem ecrImageTag_resolution
    (lib : Library) (ctx : Context) (id : string)
    (props : option StackProps) (s : EcsSynth) :
  run lib (EcsStack ctx id props) = Ok s ->
  (ctx !! "ecrImageTag" = None \/
   ctx !! "ecrImageTag" = Some (Str "") \/
   ctx !! "ecrImageTag" = Some (Num 0) ->
   ecs_ecrImageTag s = "latest") /\
  (forall t, ctx !! "ecrImageTag" = Some (Str t) -> t <> "" ->
             ecs_ecrImageTag s = t) /\
  (forall n, ctx !! "ecrImageTag" = Some (Num n) -> n <> 0%Z ->
             safe_integer n = true ->
             ecs_ecrImageTag s = string_of_Z n) /\
  ecs_ecrRepoName s = tryGetContext ctx "ecrRepoName".
Proof.
  intros H. destruct (EcsStack_inv _ _ _ _ _ H) as (p & e & Hp & He & Hr).
  rewrite (EcsStack_ok _ _ _ Hp He) in Hr. injection Hr as <-. simpl.
  unfold or_else, tryGetContext. repeat split.
  - intros [-> | [-> | ->]]; reflexivity.
  - intros t -> Ht. simpl.
    destruct (String.eqb_spec t ""); [contradiction | reflexivity].
  - intros n -> Hn _. simpl.
    destruct (Z.eqb_spec n 0); [contradiction | reflexivity].
Qed.

Lemma ecrImageTag_resolution_witness :
  exists s,
    run accept_all
      (EcsStack {[ "project" := Str "svc"; "environment" := Str "dev";
                   "ecrImageTag" := Num 6 ]} "dev-svc-ecs" None) = Ok s /\
    ecs_ecrImageTag s = "6".
Proof.
  assert (Hrun : exists s,
             run accept_all
               (EcsStack {[ "project" := Str "svc"; "environment" := Str "dev";
                            "ecrImageTag" := Num 6 ]} "dev-svc-ecs" None)
             = Ok s).
  { eexists. vm_compute. reflexivity. }
  destruct Hrun as (s & Hs). exists s. split; [exact Hs|].
  destruct (ecrImageTag_resolution _ _ _ _ s Hs) as (_ & _ & Hnum & _).
  apply (Hnum 6%Z); [reflexivity | discriminate | reflexivity].
Defined.

(** Whenever the observability stack completes, the monitored domain is
    never empty or [undefined]: it is "localhost" when the ["domainName"]
    entry is absent, empty or 0, and the entry itself when it is a non-empty
    string. *)
Theorem domainName_resolution
    (lib : Library) (ctx : Context) (id : string)
    (props : option StackProps) (o : ObservabilitySynth) :
  run lib (ObservabilityStack ctx id props) = Ok o ->
  truthy (obs_monitorDomain o) = true /\
  (ctx !! "domainName" = None \/
   ctx !! "domainName" = Some (Str "") \/
   ctx !! "domainName" = Some (Num 0) ->
   obs_monitorDomain o = Str "localhost") /\
  (forall d, ctx !! "domainName" = Some (Str d) -> d <> "" ->
             obs_monitorDomain o = Str d).
Proof.
  intros H.
  destruct (ObservabilityStack_inv _ _ _ _ _ H) as (p & e & Hp & He & Hr).
  rewrite (ObservabilityStack_ok _ _ _ Hp He) in Hr. injection Hr as <-.
  simpl. unfold or_else, tryGetContext. repeat split.
  - destruct (truthy (default Undefined (ctx !! "domainName"))) eqn:E;
      [exact E | reflexivity].
  - intros [-> | [-> | ->]]; reflexivity.
  - intros d -> Hd. simpl.
    destruct (String.eqb_spec d ""); [contradiction | reflexivity].
Qed.

Lemma domainName_resolution_witness :
  exists o,
    run accept_all
      (ObservabilityStack
         {[ "project" := Str "svc"; "environment" := Str "dev";
            "domainName" := Str "" ]} "dev-svc-observability" None) = Ok o /\
    obs_monitorDomain o = Str "localhost".
Proof.
  assert (Hrun : exists o,
             run accept_all
               (ObservabilityStack
                  {[ "project" := Str "svc"; "environment" := Str "dev";
                     "domainName" := Str "" ]} "dev-svc-observability" None)
             = Ok o).
  { eexists. vm_compute. reflexivity. }
  destruct Hrun as (o & Ho). exists o. split; [exact Ho|].
  destruct (domainName_resolution _ _ _ _ o Ho) as (_ & Hdefault & _).
  apply Hdefault. right. left. reflexivity.
Defined.

(** Whenever the observability stack completes, the resource its policy
    allows [rum:PutRumEvents] on is the app monitor it creates, and both are
    named by the value of the project tag. *)
Theorem rum_policy_targets_monitor
    (lib : Library) (ctx : Context) (id : string)
    (props : option StackProps) (o : ObservabilitySynth) :
  run lib (ObservabilityStack ctx id props) = Ok o ->
  obs_rumResourceName o = obs_monitorName o /\
  tag_value "project" (obs_tags o) = Some (obs_monitorName o).
Proof.
  intros H.
  destruct (ObservabilityStack_inv _ _ _ _ _ H) as (p & e & Hp & He & Hr).
  rewrite (ObservabilityStack_ok _ _ _ Hp He) in Hr. injection Hr as <-.
  split; reflexivity.
Qed.

Lemma rum_policy_targets_monitor_witness :
  exists o,
    run accept_all
      (ObservabilityStack
         {[ "project" := Str "Shop"; "environment" := Str "dev" ]}
         "dev-shop-observability" None) = Ok o /\
    obs_rumResourceName o = obs_monitorName o.
Proof.
  assert (Hrun : exists o,
             run accept_all
               (ObservabilityStack
                  {[ "project" := Str "Shop"; "environment" := Str "dev" ]}
                  "dev-shop-observability" None) = Ok o).
  { eexists. vm_compute. reflexivity. }
  destruct Hrun as (o & Ho). exists o. split; [exact Ho|].
  apply (rum_policy_targets_monitor _ _ _ _ o Ho).
Defined.


(** ** Resolution of the environment and the version *)

Lemma resolved_environment_truthy
    (ctx0 : Context) (packageJson : PackageJson) :
  truthy (environment (resolveContext ctx0 packageJson)) = true.
Proof.
  rewrite resolve_environment_eq.
  destruct (truthy (tryGetContext ctx0 "environment")) eqn:E;
    [exact E | reflexivity].
Qed.

(** The resolved environment is never [undefined], empty or zero; it is the
    override when that is a non-empty string and "dev" when the override is
    absent, empty or 0.  The context handed to the stacks holds it. *)
Theorem environment_resolution (ctx0 : Context) (packageJson : PackageJson) :
  let r := resolveContext ctx0 packageJson in
  truthy (environment r) = true /\
  environment r <> Undefined /\
  context r !! "environment" = Some (environment r) /\
  (forall s, ctx0 !! "environment" = Some (Str s) -> s <> "" ->
             environment r = Str s) /\
  (ctx0 !! "environment" = None \/
   ctx0 !! "environment" = Some (Str "") \/
   ctx0 !! "environment" = Some (Num 0) ->
   environment r = Str "dev").
Proof.
  intros r.
  assert (Hr := resolve_environment_eq ctx0 packageJson). fold r in Hr.
  assert (Hc : context r !! "environment" = Some (environment r))
    by apply lookup_insert_eq.
  assert (Ht : truthy (environment r) = true)
    by apply resolved_environment_truthy.
  clearbody r.
  split; [exact Ht|]. split; [intros E; rewrite E in Ht; discriminate|].
  split; [exact Hc|]. unfold tryGetContext in Hr. split.
  - intros s Hs Hne. rewrite Hr, Hs. simpl.
    destruct (String.eqb_spec s ""); [contradiction | reflexivity].
  - intros [H | [H | H]]; rewrite Hr, H; reflexivity.
Qed.

Lemma environment_resolution_witness :
  environment (resolveContext {[ "environment" := Str "Prod" ]} svc_manifest)
    = Str "Prod" /\
  environment (resolveContext {[ "environment" := Num 0 ]} svc_manifest)
    = Str "dev".
Proof.
  split.
  - apply (proj1 (proj2 (proj2 (proj2
             (environment_resolution {[ "environment" := Str "Prod" ]}
                svc_manifest)))) "Prod"); [reflexivity | discriminate].
  - apply (proj2 (proj2 (proj2 (proj2
             (environment_resolution {[ "environment" := Num 0 ]}
                svc_manifest))))).
    right. right. reflexivity.
Defined.

(** The version is the override when that is a non-empty string and the
    manifest's version when the override is absent or empty; it is stored
    in the context under ["version"]. *)
Theorem version_resolution (ctx0 : Context) (packageJson : PackageJson) :
  let r := resolveContext ctx0 packageJson in
  context r !! "version" = Some (version r) /\
  (forall s, ctx0 !! "version" = Some (Str s) -> s <> "" ->
             version r = Str s) /\
  (ctx0 !! "version" = None \/ ctx0 !! "version" = Some (Str "") ->
   version r = pkg_version packageJson).
Proof.
  intros r.
  assert (Hr := resolve_version_eq ctx0 packageJson). fold r in Hr.
  assert (Hc : context r !! "version" = Some (version r)).
  { unfold r, resolveContext, setContext; simpl.
    rewrite lookup_insert_ne by discriminate. apply lookup_insert_eq. }
  clearbody r. split; [exact Hc|]. unfold tryGetContext in Hr. split.
  - intros s Hs Hne. rewrite Hr, Hs. simpl.
    destruct (String.eqb_spec s ""); [contradiction | reflexivity].
  - intros [H | H]; rewrite Hr, H; reflexivity.
Qed.

Lemma version_resolution_witness :
  version (resolveContext {[ "version" := Str "9.9.9" ]} svc_manifest)
    = Str "9.9.9" /\
  version (resolveContext ∅ svc_manifest) = Str "1.0.0".
Proof.
  split.
  - apply (proj1 (proj2 (version_resolution {[ "version" := Str "9.9.9" ]}
                           svc_manifest)) "9.9.9");
      [reflexivity | discriminate].
  - apply (proj2 (proj2 (version_resolution ∅ svc_manifest))).
    left. reflexivity.
Defined.

(** Resolution adds exactly the keys ["project"], ["version"] and
    ["environment"] to the context and leaves every other entry as it
    was. *)
Theorem resolveContext_frame (ctx0 : Context) (packageJson : PackageJson) :
  dom (context (resolveContext ctx0 packageJson))
    = {[ "project"; "version"; "environment" ]} ∪ dom ctx0 /\
  (forall key, key <> "project" -> key <> "version" ->
               key <> "environment" ->
               context (resolveContext ctx0 packageJson) !! key
               = ctx0 !! key).
Proof.
  unfold resolveContext, setContext; simpl. split.
  - rewrite !dom_insert_L. apply set_eq. intros key.
    rewrite !elem_of_union, !elem_of_singleton. tauto.
  - intros key Hp Hv He. rewrite !lookup_insert_ne by congruence.
    reflexivity.
Qed.

Lemma resolveContext_frame_witness :
  context (resolveContext {[ "owner" := Str "ops" ]} svc_manifest) !! "owner"
  = Some (Str "ops").
Proof.
  rewrite (proj2 (resolveContext_frame {[ "owner" := Str "ops" ]}
                    svc_manifest) "owner"); [reflexivity | | | ];
    discriminate.
Defined.

(** ** Which inputs share a stack id *)

Lemma template_identifies (e1 p1 e2 p2 suffix : string) :
  no_hyphen e1 = true -> no_hyphen e2 = true ->
  (toLowerCase (e1 ++ "-" ++ p1 ++ suffix)
   = toLowerCase (e2 ++ "-" ++ p2 ++ suffix)
   <-> toLowerCase e1 = toLowerCase e2 /\ toLowerCase p1 = toLowerCase p2).
Proof.
  intros H1 H2. rewrite !template_lower. split.
  - intros H. apply split_at_first_hyphen in H as [He Hp];
      [| now rewrite toLowerCase_no_hyphen ..].
    split; [exact He|]. now apply string_app_inv_tail in Hp.
  - intros [-> ->]. reflexivity.
Qed.

Lemma template_moves_hyphen (a b c suffix : string) :
  toLowerCase ((a ++ "-" ++ b) ++ "-" ++ c ++ suffix)
  = toLowerCase (a ++ "-" ++ (b ++ "-" ++ c) ++ suffix).
Proof. f_equal. now rewrite !string_app_assoc. Qed.

Lemma template_ignores_case (e p suffix : string) :
  toLowerCase (toLowerCase e ++ "-" ++ toLowerCase p ++ suffix)
  = toLowerCase (e ++ "-" ++ p ++ suffix).
Proof. rewrite !template_lower, !toLowerCase_idempotent. reflexivity. Qed.

(** When neither environment contains a hyphen, two runs get the same stack
    id exactly when their environments and their projects agree up to
    letter case; this holds for each of the three ids. *)
Theorem stack_ids_identify_inputs (e1 p1 e2 p2 : string) :
  no_hyphen e1 = true -> no_hyphen e2 = true ->
  (ecrStackId (Str e1) (Str p1) = ecrStackId (Str e2) (Str p2)
   <-> toLowerCase e1 = toLowerCase e2 /\ toLowerCase p1 = toLowerCase p2) /\
  (ecsStackId (Str e1) (Str p1) = ecsStackId (Str e2) (Str p2)
   <-> toLowerCase e1 = toLowerCase e2 /\ toLowerCase p1 = toLowerCase p2) /\
  (observabilityStackId (Str e1) (Str p1)
   = observabilityStackId (Str e2) (Str p2)
   <-> toLowerCase e1 = toLowerCase e2 /\ toLowerCase p1 = toLowerCase p2).
Proof.
  intros H1 H2. unfold ecrStackId, ecsStackId, observabilityStackId.
  cbn [to_string].
  split; [|split]; apply template_identifies; assumption.
Qed.

Lemma stack_ids_identify_inputs_witness :
  ecrStackId (Str "Prod") (Str "Shop") = ecrStackId (Str "prod") (Str "shop")
  /\ ecrStackId (Str "prod") (Str "shop") <> ecrStackId (Str "prod") (Str "web").
Proof.
  destruct (stack_ids_identify_inputs "Prod" "Shop" "prod" "shop"
              eq_refl eq_refl) as (Hsame & _).
  destruct (stack_ids_identify_inputs "prod" "shop" "prod" "web"
              eq_refl eq_refl) as (Hdiff & _).
  split.
  - apply Hsame. split; reflexivity.
  - intros H. apply Hdiff in H as [_ H]. discriminate H.
Defined.

(** Different inputs can share all three stack ids: a hyphenated segment
    may sit at the end of the environment or at the start of the project,
    and the letter case of either input is ignored. *)
Theorem stack_id_collisions :
  (forall a b c,
      ecrStackId (Str (a ++ "-" ++ b)) (Str c)
        = ecrStackId (Str a) (Str (b ++ "-" ++ c)) /\
      ecsStackId (Str (a ++ "-" ++ b)) (Str c)
        = ecsStackId (Str a) (Str (b ++ "-" ++ c)) /\
      observabilityStackId (Str (a ++ "-" ++ b)) (Str c)
        = observabilityStackId (Str a) (Str (b ++ "-" ++ c))) /\
  (forall e p,
      ecrStackId (Str (toLowerCase e)) (Str (toLowerCase p))
        = ecrStackId (Str e) (Str p) /\
      ecsStackId (Str (toLowerCase e)) (Str (toLowerCase p))
        = ecsStackId (Str e) (Str p) /\
      observabilityStackId (Str (toLowerCase e)) (Str (toLowerCase p))
        = observabilityStackId (Str e) (Str p)).
Proof.
  unfold ecrStackId, ecsStackId, observabilityStackId. cbn [to_string].
  split.
  - intros a b c. repeat split; apply template_moves_hyphen.
  - intros e p. repeat split; apply template_ignores_case.
Qed.
